(** * The relay server of the Figma vectorizer plugin

    A shallow embedding of the Express application (the version that keeps
    the upstream credential in the environment and serves the reset-key
    check): its three handlers, the catch-all, the error middleware and the
    middleware in front of them, followed by the properties of the relay
    contract.

    The file has four layers:
    - [Js]: the JavaScript data the handlers touch (parsed JSON, property
      reads through the prototype chain, truthiness, property keys, spread);
    - [Io]: a small monad for [await fetch(...)] and [try]/[catch], run
      against an upstream that is recorded call by call;
    - [Server]: the handlers, written statement by statement after the source;
    - [Express]: the middleware stack and the router in front of them. *)

From Stdlib Require Import String Ascii List ZArith Bool Lia DecimalString.
Import ListNotations.
Local Open Scope Z_scope.
Local Open Scope string_scope.
#[local] Set Warnings "-register-all".

(* ------------------------------------------------------------------------- *)
(** ** JavaScript data *)

Module Js.

(** Parsed JSON, what [express.json()] leaves in [req.body] and what
    [response.json()] resolves to.  A number is carried by its canonical text
    (the result of [Number.prototype.toString]): the server never computes
    with a number, it only tests one for truthiness or turns it into a
    property key.  A string stands for its sequence of code units.  An
    object is its list of own properties in creation order; the names of an
    object built by [JSON.parse] or by an object literal are distinct. *)
Inductive json : Type :=
| Null
| Bool (b : bool)
| Num (text : string)
| Str (s : string)
| Arr (items : list json)
| Obj (props : list (string * json)).

(** What an expression of the handlers evaluates to: [undefined], a piece of
    data, or a built-in object reached through a prototype (a native
    function, or [Object.prototype] itself under the name [__proto__]). *)
Inductive value : Type :=
| Undefined
| Data (j : json)
| Builtin (name : string).

Definition nullish (v : value) : bool :=
  match v with
  | Undefined | Data Null => true
  | _ => false
  end.

(** [ToBoolean]: what [!x] and [if (x)] test. *)
Definition truthy (v : value) : bool :=
  match v with
  | Undefined | Data Null => false
  | Data (Bool b) => b
  | Data (Num text) => negb ((text =? "0") || (text =? "NaN"))
  | Data (Str s) => negb (s =? "")
  | Data (Arr _) | Data (Obj _) | Builtin _ => true
  end.

(** The own property [p] of a property list. *)
Fixpoint own (props : list (string * json)) (p : string) : option json :=
  match props with
  | [] => None
  | (k, v) :: rest => if k =? p then Some v else own rest p
  end.

(** The properties of [Object.prototype], which every ordinary object
    inherits (ECMAScript, with the legacy accessors of its annex B). *)
Definition Object_prototype : list string :=
  [ "constructor"; "hasOwnProperty"; "isPrototypeOf"; "propertyIsEnumerable";
    "toLocaleString"; "toString"; "valueOf"; "__proto__";
    "__defineGetter__"; "__defineSetter__";
    "__lookupGetter__"; "__lookupSetter__" ].

Definition inherited (p : string) : value :=
  if existsb (String.eqb p) Object_prototype then Builtin p else Undefined.

(** Only functions can be called; [__proto__] yields the prototype object. *)
Definition callable (v : value) : bool :=
  match v with
  | Builtin name => negb (name =? "__proto__")
  | _ => false
  end.

Definition decimal (n : nat) : string :=
  NilEmpty.string_of_uint (Nat.to_uint n).

(** [o[p]] for a receiver that is not nullish: the own property, else what
    the prototype chain has.  On an ordinary object this is complete.  From
    an array, a string, a number, a boolean or a built-in the server reads
    only the fixed names [resetKey], [version], [split], [input], [image],
    [length], [id], [status], [error] and [resetType]; of the members that
    [Array.prototype], [String.prototype] and the like add to
    [Object.prototype], only [length] and [split] are among these names, so
    only they are listed. *)
Definition Get (o : value) (p : string) : value :=
  match o with
  | Undefined | Data Null => Undefined
  | Data (Obj props) =>
      match own props p with
      | Some j => Data j
      | None => inherited p
      end
  | Data (Arr items) =>
      if p =? "length" then Data (Num (decimal (length items)))
      else inherited p
  | Data (Str s) =>
      if p =? "length" then Data (Num (decimal (String.length s)))
      else if p =? "split" then Builtin "split"
      else inherited p
  | Data (Bool _) | Data (Num _) | Builtin _ => inherited p
  end.

Fixpoint all_some {A : Type} (l : list (option A)) : option (list A) :=
  match l with
  | [] => Some []
  | None :: _ => None
  | Some a :: rest => option_map (cons a) (all_some rest)
  end.

(** [ToString] of parsed JSON; [None] is a thrown [TypeError].  An array
    goes through [Array.prototype.join], which writes [null] as the empty
    string.  An object goes through [OrdinaryToPrimitive]: an own [toString]
    property is data, hence not callable, and [valueOf] then gives no
    primitive either, so the conversion throws; otherwise
    [Object.prototype.toString] answers. *)
Fixpoint ToString (j : json) : option string :=
  match j with
  | Null => Some "null"
  | Bool b => Some (if b then "true" else "false")
  | Num text => Some text
  | Str s => Some s
  | Arr items =>
      option_map (String.concat ",")
        (all_some (map (fun x => match x with
                                 | Null => Some ""
                                 | _ => ToString x
                                 end) items))
  | Obj props =>
      match own props "toString" with
      | Some _ => None
      | None => Some "[object Object]"
      end
  end.

(** [ToPropertyKey], the conversion behind [o[k]]. *)
Definition ToPropertyKey (v : value) : option string :=
  match v with
  | Undefined => Some "undefined"
  | Data j => ToString j
  | Builtin name =>
      if callable v then Some ("function " ++ name ++ "() { [native code] }")
      else Some "[object Object]"
  end.

Fixpoint indexed {A : Type} (i : nat) (l : list A) : list (string * A) :=
  match l with
  | [] => []
  | x :: rest => (decimal i, x) :: indexed (S i) rest
  end.

Fixpoint units (s : string) : list json :=
  match s with
  | EmptyString => []
  | String c rest => Str (String c EmptyString) :: units rest
  end.

(** The own enumerable properties that [{...v}] copies.  A built-in has
    none: the members of native functions and of [Object.prototype] are not
    enumerable. *)
Definition own_enumerable (v : value) : list (string * json) :=
  match v with
  | Data (Obj props) => props
  | Data (Arr items) => indexed 0 items
  | Data (Str s) => indexed 0 (units s)
  | _ => []
  end.

(** [target[k] = v] on a property list: an existing name keeps its place. *)
Fixpoint define (target : list (string * json)) (k : string) (v : json)
  : list (string * json) :=
  match target with
  | [] => [(k, v)]
  | (k', v') :: rest =>
      if k' =? k then (k, v) :: rest else (k', v') :: define rest k v
  end.

(** [{ ...target, ...v }].  Names are kept in creation order; the engine's
    move of integer-like names to the front is not modelled, as no object the
    server builds has such a name. *)
Definition spread (target : list (string * json)) (v : value)
  : list (string * json) :=
  fold_left (fun acc kv => define acc (fst kv) (snd kv)) (own_enumerable v) target.

(** What [express.json()] can leave in [req.body] (with Express 4, which the
    catch-all [app.use('*', ...)] requires): an object or an array. *)
Definition parsed_body (j : json) : bool :=
  match j with
  | Obj _ | Arr _ => true
  | _ => false
  end.

End Js.

(* ------------------------------------------------------------------------- *)
(** ** Outbound calls and exceptions *)

Module Io.
Import Js.

(** The arguments of one [fetch(url, { method, headers, body })].  [body] is
    the value handed to [JSON.stringify]; [None] when no body is given. *)
Record outbound : Type := {
  fetch_url : string;
  fetch_method : string;
  fetch_headers : list (string * string);
  fetch_body : option json
}.

(** How the upstream answers one call: [fetch] rejects, or it resolves to a
    response with a status and a body that [response.json()] either parses
    ([inr]) or rejects with a message ([inl]), or the exchange never
    completes: the promise of [fetch], or that of [response.json()] after
    it, stays pending (the server passes no timeout to [fetch]). *)
Inductive reply : Type :=
| Rejects (message : string)
| Replies (status : Z) (parsed : string + json)
| Hangs.

(** A computation that returns, throws an error (kept as its [message]),
    awaits one outbound call and goes on with the reply, or stays suspended
    for ever at an [await] that never settles. *)
Inductive io (A : Type) : Type :=
| Return (a : A)
| Throw (message : string)
| Await (rq : outbound) (k : reply -> io A)
| Never.

Arguments Return {A} a.
Arguments Throw {A} message.
Arguments Await {A} rq k.
Arguments Never {A}.

Fixpoint bind {A B : Type} (m : io A) (f : A -> io B) : io B :=
  match m with
  | Return a => f a
  | Throw message => Throw message
  | Await rq k => Await rq (fun r => bind (k r) f)
  | Never => Never
  end.

(** [try { m } catch (error) { h error.message }] *)
Fixpoint try_catch {A : Type} (m : io A) (h : string -> io A) : io A :=
  match m with
  | Return a => Return a
  | Throw message => h message
  | Await rq k => Await rq (fun r => try_catch (k r) h)
  | Never => Never
  end.

Definition upstream : Type := outbound -> reply.

(** Why a run has no result: an error that nobody caught, or an [await]
    that never settles.  Either way the request gets no response. *)
Inductive stall : Type :=
| Uncaught (message : string)
| Pending.

(** Running a computation against an upstream: its outcome ([inr] for a
    result, [inl] when there is none) and the outbound calls it made, in
    order. *)
Fixpoint run {A : Type} (net : upstream) (m : io A)
  : (stall + A) * list outbound :=
  match m with
  | Return a => (inr a, [])
  | Throw message => (inl (Uncaught message), [])
  | Await rq k =>
      let (outcome, calls) := run net (k (net rq)) in (outcome, rq :: calls)
  | Never => (inl Pending, [])
  end.

(** A computation that awaits nothing: it has returned or thrown. *)
Definition settled {A : Type} (m : io A) : Prop :=
  (exists a, m = Return a) \/ (exists message, m = Throw message).

End Io.

Declare Scope io_scope.
Delimit Scope io_scope with io.
Notation "x <- m ;; k" := (Io.bind m (fun x => k))
  (at level 100, m at next level, right associativity) : io_scope.
Notation "m ;; k" := (Io.bind m (fun _ => k))
  (at level 100, right associativity) : io_scope.

(* ------------------------------------------------------------------------- *)
(** ** The handlers *)

Module Server.
Import Js Io.
Local Open Scope io_scope.

(** [process.env], as far as the server reads it. *)
Record environment : Type := {
  REPLICATE_API_KEY : option string;
  NODE_ENV : option string
}.

(** [req], as far as the handlers read it. *)
Record request : Type := {
  method : string;
  path : string;
  params : list (string * string);
  body : json
}.

(** What the server answers: the status, and the payload handed to
    [res.status(code).json(payload)].  [res.json(payload)] alone answers with
    Express's default status 200, and [res.end()] has no payload.  (To a
    [HEAD] request Express sends the head of this response and keeps the
    payload back.) *)
Record response : Type := {
  statusCode : Z;
  sent : option json
}.

Definition res_status_json (code : Z) (payload : json) : response :=
  {| statusCode := code; sent := Some payload |}.

Definition res_json (payload : json) : response := res_status_json 200 payload.

(** The response object that [fetch] resolves to. *)
Record Response : Type := {
  status : Z;
  json_result : string + json
}.

(** [response.ok] of node-fetch: the status is in 200..299. *)
Definition ok (r : Response) : bool :=
  ((200 <=? status r)%Z && (status r <? 300)%Z)%bool.

Definition fetch (rq : outbound) : io Response :=
  Await rq (fun r =>
    match r with
    | Rejects message => Throw message
    | Replies st parsed => Return {| status := st; json_result := parsed |}
    | Hangs => Never
    end).

(** [await response.json()] *)
Definition response_json (r : Response) : io json :=
  match json_result r with
  | inl message => Throw message
  | inr j => Return j
  end.

(** [!apiKey] on a variable of the environment: unset or empty. *)
Definition unset (v : option string) : bool :=
  match v with
  | None => true
  | Some s => s =? ""
  end.

Definition env_text (v : option string) : string :=
  match v with
  | None => "undefined"
  | Some s => s
  end.

(** [o.p]: reading a property of [undefined] or [null] throws (the message is
    V8's). *)
Definition member (o : value) (p : string) : io value :=
  match o with
  | Undefined =>
      Throw ("Cannot read properties of undefined (reading '" ++ p ++ "')")
  | Data Null =>
      Throw ("Cannot read properties of null (reading '" ++ p ++ "')")
  | _ => Return (Get o p)
  end.

(** [console.log('Model:', req.body.version?.split(':')[0] || 'unknown')].
    [?.] stops the chain only when [version] is nullish; otherwise [split] is
    read and called, and only a string has a callable [split]
    ([String.prototype.split]), whose result always has an element 0. *)
Definition log_model (req : request) : io unit :=
  version <- member (Data (body req)) "version" ;;
  if nullish version then Return tt
  else if callable (Get version "split") then Return tt
  else Throw "req.body.version?.split is not a function".

(** [console.log('Image size:', req.body.input?.image?.length || 0, 'chars')] *)
Definition log_image (req : request) : io unit :=
  input <- member (Data (body req)) "input" ;;
  if nullish input then Return tt
  else
    let image := Get input "image" in
    if nullish image then Return tt
    else
      let _ := Get image "length" in
      Return tt.

Definition configuration_error : json :=
  Obj [("error",
        Str "Server configuration error: REPLICATE_API_KEY environment variable not set")].

Definition proxy_error (message : string) : json :=
  Obj [("error", Str "Proxy server error"); ("message", Str message)].

(** The call that [POST /predictions] makes for [req] with credential
    [apiKey]. *)
Definition create_call (apiKey : string) (req : request) : outbound :=
  {| fetch_url := "https://api.replicate.com/v1/predictions";
     fetch_method := "POST";
     fetch_headers := [("Authorization", "Token " ++ apiKey);
                       ("Content-Type", "application/json")];
     fetch_body := Some (body req) |}.

(** [app.post('/predictions', async (req, res) => ...)] *)
Definition post_predictions (env : environment) (req : request) : io response :=
  try_catch
    (let apiKey := REPLICATE_API_KEY env in
     if unset apiKey then
       Return (res_status_json 500 configuration_error)
     else
       log_model req ;;
       log_image req ;;
       response <- fetch (create_call (env_text apiKey) req) ;;
       result <- response_json response ;;
       if negb (ok response) then
         Return (res_status_json (status response) result)
       else
         (* console.log('Prediction created:', result.id) *)
         member (Data result) "id" ;;
         Return (res_json result))
    (fun message => Return (res_status_json 500 (proxy_error message))).

(** [`${req.params.id}`] *)
Definition param (req : request) (name : string) : string :=
  match find (fun kv => fst kv =? name) (params req) with
  | Some kv => snd kv
  | None => "undefined"
  end.

(** The call that [GET /predictions/:id] makes. *)
Definition status_call (apiKey : string) (predictionId : string) : outbound :=
  {| fetch_url := "https://api.replicate.com/v1/predictions/" ++ predictionId;
     fetch_method := "GET";
     fetch_headers := [("Authorization", "Token " ++ apiKey)];
     fetch_body := None |}.

(** [app.get('/predictions/:id', async (req, res) => ...)] *)
Definition get_prediction (env : environment) (req : request) : io response :=
  try_catch
    (let apiKey := REPLICATE_API_KEY env in
     if unset apiKey then
       Return (res_status_json 500 configuration_error)
     else
       let predictionId := param req "id" in
       response <- fetch (status_call (env_text apiKey) predictionId) ;;
       result <- response_json response ;;
       if negb (ok response) then
         Return (res_status_json (status response) result)
       else
         (* console.log('Prediction status:', result.status); the reads of
            result.status and result.error that follow cannot throw once
            this one has not *)
         member (Data result) "status" ;;
         Return (res_json result))
    (fun message => Return (res_status_json 500 (proxy_error message))).

(** One descriptor of the table. *)
Definition descriptor (resetType : string) (message : string) : json :=
  Obj [("resetType", Str resetType);
       ("creditsGranted", Num "0");
       ("message", Str message)].

(** The own properties of the object literal [SECURE_RESET_KEYS]. *)
Definition SECURE_RESET_KEYS_entries : list (string * json) :=
      [("ALETO_RESET_DEFAULT_2024",
        descriptor "default" "Credits reset to default (2 credits)");
       ("ALETO_RESET_ZERO_2024",
        descriptor "zero" "Credits reset to zero");
       ("DEV_RESET_CREDITS_2024",
        descriptor "default" "Development reset to default (2 credits)");
       ("ALETO_ADMIN_RESET_2024",
        descriptor "default" "Admin reset to default (2 credits)")].

Definition SECURE_RESET_KEYS : json := Obj SECURE_RESET_KEYS_entries.

(** [SECURE_RESET_KEYS[resetKey]]: the key conversion may throw. *)
Definition lookup (resetKey : value) : io value :=
  match ToPropertyKey resetKey with
  | None => Throw "Cannot convert object to primitive value"
  | Some key => Return (Get (Data SECURE_RESET_KEYS) key)
  end.

Definition key_required : json :=
  Obj [("success", Bool false); ("message", Str "Reset key is required")].

Definition invalid_key : json :=
  Obj [("success", Bool false); ("message", Str "Invalid reset key")].

Definition validation_failed : json :=
  Obj [("success", Bool false); ("message", Str "Reset key validation failed")].

(** [app.post('/validate-reset-key', async (req, res) => ...)] *)
Definition validate_reset_key (env : environment) (req : request) : io response :=
  try_catch
    ((* const { resetKey } = req.body *)
     resetKey <- member (Data (body req)) "resetKey" ;;
     if negb (truthy resetKey) then
       Return (res_status_json 400 key_required)
     else
       found <- lookup resetKey ;;
       if truthy found then
         (* console.log(..., SECURE_RESET_KEYS[resetKey].resetType) *)
         logged <- lookup resetKey ;;
         member logged "resetType" ;;
         merged <- lookup resetKey ;;
         Return (res_json (Obj (spread [("success", Bool true)] merged)))
       else
         Return (res_json invalid_key))
    (fun _ => Return (res_status_json 500 validation_failed)).

(** [app.get('/', (req, res) => ...)] *)
Definition health (env : environment) (req : request) : io response :=
  Return (res_json (Obj
    [("status", Str "ok");
     ("message", Str "Figma AI Rotation Proxy Server");
     ("endpoints", Obj
        [("POST /predictions", Str "Create AI rotation prediction");
         ("GET /predictions/:id", Str "Get prediction status/result");
         ("POST /validate-reset-key",
          Str "Validate secure reset keys for Aleto plugin")]);
     ("usage", Str "API key managed server-side via environment variable")])).

Definition availableRoutes : json :=
  Arr [Str "GET /"; Str "POST /predictions"; Str "GET /predictions/:id";
       Str "POST /validate-reset-key"].

Definition route_not_found : json :=
  Obj [("error", Str "Route not found"); ("availableRoutes", availableRoutes)].

(** [app.use('*', (req, res) => ...)] *)
Definition catch_all (env : environment) (req : request) : io response :=
  Return (res_status_json 404 route_not_found).

(** [app.use((error, req, res, next) => ...)] *)
Definition error_middleware (env : environment) (message : string) : io response :=
  Return (res_status_json 500 (Obj
    [("error", Str "Internal server error");
     ("message",
      Str (match NODE_ENV env with
           | Some "development" => message
           | _ => "Something went wrong"
           end))])).

(** The logging of [POST /predictions] goes through when the payload is an
    object or an array whose [version] is absent, [null] or a string. *)
Definition version_of (req : request) : value := Get (Data (body req)) "version".

Definition loggable (req : request) : bool :=
  (parsed_body (body req)
   && match version_of req with
      | Undefined | Data Null | Data (Str _) => true
      | _ => false
      end)%bool.

(** The two relay handlers. *)
Inductive relay : (environment -> request -> io response) -> Prop :=
| relay_create : relay post_predictions
| relay_status : relay get_prediction.

(** The call a relay handler makes for [req]. *)
Inductive calls_upstream (env : environment) (req : request)
  : (environment -> request -> io response) -> outbound -> Prop :=
| calls_create :
    calls_upstream env req post_predictions
      (create_call (env_text (REPLICATE_API_KEY env)) req)
| calls_status :
    calls_upstream env req get_prediction
      (status_call (env_text (REPLICATE_API_KEY env)) (param req "id")).

(** The message with which a reply makes the handler's [await] throw. *)
Definition thrown (r : reply) : option string :=
  match r with
  | Rejects message => Some message
  | Replies _ (inl message) => Some message
  | Replies _ (inr _) => None
  | Hangs => None
  end.

(** Derived form, used in the proofs: what both relay handlers do with the
    reply to their call ([logged] is the property of the result that the
    handler prints when the status is ok).  While the call stays pending
    the handler stays suspended and nothing is answered. *)
Definition settle (logged : string) (r : reply) : stall + response :=
  match r with
  | Rejects message => inr (res_status_json 500 (proxy_error message))
  | Replies _ (inl message) => inr (res_status_json 500 (proxy_error message))
  | Replies st (inr result) =>
      inr (if ok {| status := st; json_result := inr result |} then
             match result with
             | Null =>
                 res_status_json 500
                   (proxy_error
                      ("Cannot read properties of null (reading '"
                       ++ logged ++ "')"))
             | _ => res_json result
             end
           else res_status_json st result)
  | Hangs => inl Pending
  end.

End Server.

(* ------------------------------------------------------------------------- *)
(** ** The middleware stack and the router *)

Module Express.
Import Js Io Server.

(** What [express.json({ limit: '10mb' })] makes of the message body. *)
Inductive payload : Type :=
| Absent                        (* no body, or one not declared as JSON *)
| ParsedObject (props : list (string * json))
| ParsedArray (items : list json)
| Refused (message : string).   (* malformed text, a top-level primitive
                                   (strict mode), more than 10mb, ... *)

(** An incoming HTTP message: the method as sent, the path of the URL without
    its query, still percent-encoded, and the body. *)
Record incoming : Type := {
  http_method : string;
  pathname : string;
  content : payload
}.

(** The JSON parser: [req.body] or the error handed to [next]. *)
Definition json_parser (p : payload) : string + json :=
  match p with
  | Absent => inr (Obj [])
  | ParsedObject props => inr (Obj props)
  | ParsedArray items => inr (Arr items)
  | Refused message => inl message
  end.

Definition between (lo hi : N) (c : ascii) : bool :=
  ((lo <=? N_of_ascii c)%N && (N_of_ascii c <=? hi)%N)%bool.

Definition lower_char (c : ascii) : ascii :=
  if between 65 90 c then ascii_of_N (N_of_ascii c + 32) else c.

Definition upper_char (c : ascii) : ascii :=
  if between 97 122 c then ascii_of_N (N_of_ascii c - 32) else c.

Fixpoint map_chars (f : ascii -> ascii) (s : string) : string :=
  match s with
  | EmptyString => EmptyString
  | String c rest => String (f c) (map_chars f rest)
  end.

Definition toLowerCase : string -> string := map_chars lower_char.
Definition toUpperCase : string -> string := map_chars upper_char.

(** The segments of a path, cut at every slash: ["/a/b/"] gives
    [[""; "a"; "b"; ""]]. *)
Fixpoint segments (s : string) : list string :=
  match s with
  | EmptyString => [""]
  | String c rest =>
      if (c =? "/")%char then "" :: segments rest
      else match segments rest with
           | seg :: segs => String c seg :: segs
           | [] => [String c ""]
           end
  end.

(** A route path, cut at its slashes: ['/predictions/:id'] is
    [[Lit "predictions"; Param "id"]] and ['/'] is [[]]. *)
Inductive token : Type :=
| Lit (s : string)
| Param (name : string).

(** The regular expression that Express 4 compiles a route path to
    (not case sensitive, not strict, anchored at the end): each literal
    matches its segment up to case, each parameter captures one segment that
    is not empty, and one trailing slash is allowed. *)
Fixpoint match_tokens (pattern : list token) (segs : list string)
  : option (list (string * string)) :=
  match pattern, segs with
  | [], [] => Some []
  | [], [""] => Some []
  | Lit s :: pattern', seg :: segs' =>
      if toLowerCase seg =? toLowerCase s then match_tokens pattern' segs'
      else None
  | Param name :: pattern', seg :: segs' =>
      if seg =? "" then None
      else option_map (cons (name, seg)) (match_tokens pattern' segs')
  | _, _ => None
  end.

Definition regexp_exec (pattern : list token) (path : string)
  : option (list (string * string)) :=
  match segments path with
  | "" :: segs => match_tokens pattern segs
  | _ => None
  end.

(** A route registered with [app.get] or [app.post]. *)
Record route : Type := {
  verb : string;
  pattern : list token;
  handle : environment -> request -> io response
}.

(** The routes, in the order of their registration. *)
Definition routes : list route :=
  [ {| verb := "get"; pattern := []; handle := health |};
    {| verb := "post"; pattern := [Lit "predictions"];
       handle := post_predictions |};
    {| verb := "get"; pattern := [Lit "predictions"; Param "id"];
       handle := get_prediction |};
    {| verb := "post"; pattern := [Lit "validate-reset-key"];
       handle := validate_reset_key |} ].

(** A route serves its own method, and a [get] route serves [HEAD] too. *)
Definition handles_method (r : route) (m : string) : bool :=
  let name := toLowerCase m in
  ((name =? verb r) || ((name =? "head") && (verb r =? "get")))%bool.

(** The method and the path of the message are those of route [r]. *)
Definition served (msg : incoming) (r : route) : bool :=
  match regexp_exec (pattern r) (pathname msg) with
  | Some _ => handles_method r (http_method msg)
  | None => false
  end.

(** The method and the path of the message are those of one of the routes. *)
Definition routed (msg : incoming) : bool := existsb (served msg) routes.

(** [cors(...)] answers every [OPTIONS] request itself (a preflight): status
    204, no body, and the rest of the stack is not run. *)
Definition preflight (msg : incoming) : bool :=
  toUpperCase (http_method msg) =? "OPTIONS".

Definition preflight_response : response :=
  {| statusCode := 204; sent := None |}.

Inductive matching : Type :=
| NoMatch
| Match (params : list (string * string))
| Failed (message : string).

Section Router.

(** [decodeURIComponent], which the router applies to what a path captures;
    [None] is a thrown [URIError]. *)
Variable decodeURIComponent : string -> option string.

Definition decode_failure (val : string) : string :=
  "Failed to decode param '" ++ val ++ "'".

Fixpoint decode_params (captures : list (string * string)) : matching :=
  match captures with
  | [] => Match []
  | (name, val) :: rest =>
      match decodeURIComponent val with
      | None => Failed (decode_failure val)
      | Some decoded =>
          match decode_params rest with
          | Match params => Match ((name, decoded) :: params)
          | other => other
          end
      end
  end.

(** Matching the path against the layer of a route. *)
Definition layer_match (r : route) (path : string) : matching :=
  match regexp_exec (pattern r) path with
  | None => NoMatch
  | Some captures => decode_params captures
  end.

Definition pending (layerError : option string) (message : string) : option string :=
  match layerError with
  | Some e => Some e
  | None => Some message
  end.

(** The router walks the layers in order.  An error of a layer is held in
    [layerError]: no route matches while one is pending, and it ends in the
    error middleware. *)
Fixpoint dispatch (env : environment) (msg : incoming) (body : json)
    (layers : list route) (layerError : option string) : io response :=
  match layers with
  | r :: rest =>
      match layer_match r (pathname msg) with
      | NoMatch => dispatch env msg body rest layerError
      | Failed message => dispatch env msg body rest (pending layerError message)
      | Match params =>
          match layerError with
          | Some _ => dispatch env msg body rest layerError
          | None =>
              if handles_method r (http_method msg) then
                handle r env {| method := http_method msg;
                                path := pathname msg;
                                params := params;
                                body := body |}
              else dispatch env msg body rest layerError
          end
      end
  | [] =>
      (* the layer of app.use('*', ...) matches every path and decodes it
         as its one parameter *)
      match layerError, decodeURIComponent (pathname msg) with
      | Some message, _ => error_middleware env message
      | None, None => error_middleware env (decode_failure (pathname msg))
      | None, Some decoded =>
          catch_all env {| method := http_method msg;
                           path := pathname msg;
                           params := [("0", decoded)];
                           body := body |}
      end
  end.

(** The application: [cors], the JSON parser, the logger (which only
    prints), the routes, the catch-all and the error middleware. *)
Definition app (env : environment) (msg : incoming) : io response :=
  if preflight msg then Return preflight_response
  else
    match json_parser (content msg) with
    | inl message => error_middleware env message
    | inr body => dispatch env msg body routes None
    end.

(** The layer of route [r] does not fail on the path of the message. *)
Definition decodes (msg : incoming) (r : route) : bool :=
  match layer_match r (pathname msg) with
  | Failed _ => false
  | _ => true
  end.

(** No layer fails to decode what it captures from the path. *)
Definition well_encoded (msg : incoming) : bool :=
  (match decodeURIComponent (pathname msg) with Some _ => true | None => false end
   && forallb (decodes msg) routes)%bool.

End Router.

Definition accepted (p : payload) : bool :=
  match json_parser p with
  | inr _ => true
  | inl _ => false
  end.

End Express.

(* ------------------------------------------------------------------------- *)
(** ** Shapes of paths and of route patterns *)

Module Paths.
Import Express.

(** The string has no slash: it is one segment. *)
Fixpoint no_slash (s : string) : bool :=
  match s with
  | EmptyString => true
  | String c rest => (negb (c =? "/")%char && no_slash rest)%bool
  end.

(** The last character of the string is a slash. *)
Fixpoint ends_with_slash (s : string) : bool :=
  match s with
  | EmptyString => false
  | String c EmptyString => (c =? "/")%char
  | String _ rest => ends_with_slash rest
  end.

(** The literals of a route pattern are not empty, as in every path that
    the server registers. *)
Fixpoint proper (pattern : list token) : bool :=
  match pattern with
  | [] => true
  | Lit s :: rest => (negb (s =? "") && proper rest)%bool
  | Param _ :: rest => proper rest
  end.

Definition matches (pattern : list token) (path : string) : bool :=
  match regexp_exec pattern path with
  | Some _ => true
  | None => false
  end.

End Paths.

(* ------------------------------------------------------------------------- *)
(** ** The earlier server, with the caller's credential (server.js) *)

Module Legacy.
Import Js Io Server.
Local Open Scope io_scope.

(** [req] of the earlier server: it also reads [req.headers.authorization],
    which Node gives as a string when the header is there. *)
Record request : Type := {
  authorization : option string;
  inner : Server.request
}.

(** [!apiKey || !apiKey.startsWith('Token ')] *)
Definition refused (apiKey : option string) : bool :=
  match apiKey with
  | None => true
  | Some s => ((s =? "") || negb (prefix "Token " s))%bool
  end.

Definition unauthorized : json :=
  Obj [("error",
        Str "Missing or invalid Authorization header. Use: Authorization: Token YOUR_API_KEY")].

(** The calls of the earlier server carry the caller's header as it came. *)
Definition create_call (apiKey : string) (req : request) : outbound :=
  {| fetch_url := "https://api.replicate.com/v1/predictions";
     fetch_method := "POST";
     fetch_headers := [("Authorization", apiKey);
                       ("Content-Type", "application/json")];
     fetch_body := Some (body (inner req)) |}.

Definition status_call (apiKey : string) (predictionId : string) : outbound :=
  {| fetch_url := "https://api.replicate.com/v1/predictions/" ++ predictionId;
     fetch_method := "GET";
     fetch_headers := [("Authorization", apiKey)];
     fetch_body := None |}.

(** [app.post('/predictions', async (req, res) => ...)] of server.js *)
Definition post_predictions (req : request) : io response :=
  try_catch
    (let apiKey := authorization req in
     if refused apiKey then
       Return (res_status_json 401 unauthorized)
     else
       log_model (inner req) ;;
       log_image (inner req) ;;
       response <- fetch (create_call (env_text apiKey) req) ;;
       result <- response_json response ;;
       if negb (ok response) then
         Return (res_status_json (status response) result)
       else
         member (Data result) "id" ;;
         Return (res_json result))
    (fun message => Return (res_status_json 500 (proxy_error message))).

(** [app.get('/predictions/:id', async (req, res) => ...)] of server.js *)
Definition get_prediction (req : request) : io response :=
  try_catch
    (let apiKey := authorization req in
     if refused apiKey then
       Return (res_status_json 401 unauthorized)
     else
       let predictionId := param (inner req) "id" in
       response <- fetch (status_call (env_text apiKey) predictionId) ;;
       result <- response_json response ;;
       if negb (ok response) then
         Return (res_status_json (status response) result)
       else
         member (Data result) "status" ;;
         Return (res_json result))
    (fun message => Return (res_status_json 500 (proxy_error message))).

(** The two relay handlers of server.js. *)
Inductive relay : (request -> io response) -> Prop :=
| relay_create : relay post_predictions
| relay_status : relay get_prediction.

(** The handler of the later server that took the place of each. *)
Inductive successor
  : (request -> io response) ->
    (environment -> Server.request -> io response) -> Prop :=
| successor_create : successor post_predictions Server.post_predictions
| successor_status : successor get_prediction Server.get_prediction.

End Legacy.

(* ------------------------------------------------------------------------- *)
(** ** Sample data *)

Module Samples.
Import Js Io Server Express.

Definition with_key : environment :=
  {| REPLICATE_API_KEY := Some "r8_secret"; NODE_ENV := None |}.

Definition without_key : environment :=
  {| REPLICATE_API_KEY := None; NODE_ENV := None |}.

Definition post (p : string) (b : json) : request :=
  {| method := "POST"; path := p; params := []; body := b |}.

Definition get_status (id : string) : request :=
  {| method := "GET"; path := "/predictions/" ++ id;
     params := [("id", id)]; body := Obj [] |}.

Definition inference : json :=
  Obj [("version", Str "owner/model:0123abcd");
       ("input", Obj [("image", Str "data:image/png;base64,AAAA")])].

Definition prediction : json :=
  Obj [("id", Str "p1"); ("status", Str "starting")].

Definition unprocessable : json :=
  Obj [("detail", Str "Invalid version or not permitted")].

Definition answers (st : Z) (j : json) : upstream := fun _ => Replies st (inr j).

Definition down : upstream := fun _ => Rejects "connect ECONNREFUSED".

Definition silent : upstream := fun _ => Hangs.

Definition garbled : upstream :=
  fun _ => Replies 502 (inl "Unexpected token < in JSON at position 0").

Definition verbatim (s : string) : option string := Some s.

Definition keyed (resetKey : json) : request :=
  post "/validate-reset-key" (Obj [("resetKey", resetKey)]).

Definition with_header (h : option string) (req : request) : Legacy.request :=
  {| Legacy.authorization := h; Legacy.inner := req |}.

End Samples.

(* ------------------------------------------------------------------------- *)
(** ** Running computations *)

Import Js Io Server Express.

(** [run] goes through a sequence: the calls of the first part, then those
    of the rest, unless the first part throws or stays pending. *)
Lemma run_bind {A B : Type} (net : upstream) (m : io A) (f : A -> io B) :
  run net (bind m f) =
  match run net m with
  | (inl why, calls) => (inl why, calls)
  | (inr a, calls) =>
      let (outcome, more) := run net (f a) in (outcome, (calls ++ more)%list)
  end.
Proof.
  induction m as [a | message | rq k IH |]; cbn.
  - destruct (run net (f a)); reflexivity.
  - reflexivity.
  - rewrite IH. destruct (run net (k (net rq))) as [[why | a] calls]; cbn.
    + reflexivity.
    + destruct (run net (f a)); reflexivity.
  - reflexivity.
Qed.

(** [run] goes through a [try]: a thrown error runs the [catch] block, after
    the calls made before the throw; an [await] that stays pending is not
    caught. *)
Lemma run_try_catch {A : Type} (net : upstream) (m : io A) (h : string -> io A) :
  run net (try_catch m h) =
  match run net m with
  | (inr a, calls) => (inr a, calls)
  | (inl (Uncaught message), calls) =>
      let (outcome, more) := run net (h message) in (outcome, (calls ++ more)%list)
  | (inl Pending, calls) => (inl Pending, calls)
  end.
Proof.
  induction m as [a | message | rq k IH |]; cbn.
  - reflexivity.
  - destruct (run net (h message)); reflexivity.
  - rewrite IH.
    destruct (run net (k (net rq))) as [[[message |] | a] calls]; cbn.
    + destruct (run net (h message)); reflexivity.
    + reflexivity.
    + reflexivity.
  - reflexivity.
Qed.

(** The property reads and the logging await nothing. *)
Lemma member_settled (o : value) (p : string) : settled (member o p).
Proof.
  unfold settled, member.
  destruct o as [| [] |]; eauto.
Qed.

Lemma log_model_settled (req : request) : settled (log_model req).
Proof.
  unfold settled, log_model.
  destruct (member_settled (Data (body req)) "version") as [[v ->] | [e ->]]; cbn.
  - destruct (nullish v); [eauto |].
    destruct (callable (Get v "split")); eauto.
  - eauto.
Qed.

Lemma log_image_settled (req : request) : settled (log_image req).
Proof.
  unfold settled, log_image.
  destruct (member_settled (Data (body req)) "input") as [[v ->] | [e ->]]; cbn.
  - destruct (nullish v); [eauto |].
    destruct (nullish (Get v "image")); eauto.
  - eauto.
Qed.

(** On a loggable request both logging statements go through. *)
Lemma log_model_passes (req : request) :
  loggable req = true -> log_model req = Return tt.
Proof.
  unfold loggable, version_of, log_model, member.
  destruct (body req) as [| | | | items | props];
    cbn [parsed_body andb bind]; try discriminate.
  - destruct (Get (Data (Arr items)) "version") as [| [] |];
      cbn; try discriminate; reflexivity.
  - destruct (Get (Data (Obj props)) "version") as [| [] |];
      cbn; try discriminate; reflexivity.
Qed.

Lemma log_image_passes (req : request) :
  parsed_body (body req) = true -> log_image req = Return tt.
Proof.
  unfold log_image, member.
  destruct (body req) as [| | | | items | props];
    cbn [parsed_body bind]; try discriminate; intros _.
  - destruct (nullish (Get (Data (Arr items)) "input")); [reflexivity |].
    destruct (nullish (Get (Get (Data (Arr items)) "input") "image")); reflexivity.
  - destruct (nullish (Get (Data (Obj props)) "input")); [reflexivity |].
    destruct (nullish (Get (Get (Data (Obj props)) "input") "image")); reflexivity.
Qed.

(* ------------------------------------------------------------------------- *)
(** ** The relay handlers *)

(** The common tail of both relay handlers, from [fetch] to the response. *)
Lemma settle_tail (net : upstream) (rq : outbound) (logged : string)
    (h : string -> io response) :
  (forall message, h message = Return (res_status_json 500 (proxy_error message))) ->
  run net
    (try_catch
       (response <- fetch rq ;;
        result <- response_json response ;;
        if negb (ok response) then
          Return (res_status_json (status response) result)
        else (member (Data result) logged ;; Return (res_json result)))%io
       h)
  = (settle logged (net rq), [rq]).
Proof.
  intros Hh. unfold fetch, response_json, settle. cbn.
  destruct (net rq) as [message | st [message | result] |]; cbn.
  - rewrite Hh. reflexivity.
  - rewrite Hh. reflexivity.
  - destruct (ok {| status := st; json_result := inr result |}); cbn.
    + destruct result; cbn; rewrite ?Hh; reflexivity.
    + reflexivity.
  - reflexivity.
Qed.

(** Once the credential is there and the logging has gone through,
    [POST /predictions] makes its call and settles on the reply. *)
Lemma run_post_predictions (net : upstream) (env : environment) (req : request) :
  unset (REPLICATE_API_KEY env) = false ->
  log_model req = Return tt ->
  log_image req = Return tt ->
  let rq := create_call (env_text (REPLICATE_API_KEY env)) req in
  run net (post_predictions env req) = (settle "id" (net rq), [rq]).
Proof.
  intros Hkey Hmodel Himage rq. unfold post_predictions.
  rewrite Hkey, Hmodel, Himage. cbn [bind].
  apply settle_tail. reflexivity.
Qed.

(** With the credential there, [GET /predictions/:id] always makes its call. *)
Lemma run_get_prediction (net : upstream) (env : environment) (req : request) :
  unset (REPLICATE_API_KEY env) = false ->
  let rq := status_call (env_text (REPLICATE_API_KEY env)) (param req "id") in
  run net (get_prediction env req) = (settle "status" (net rq), [rq]).
Proof.
  intros Hkey rq. unfold get_prediction.
  rewrite Hkey. apply settle_tail. reflexivity.
Qed.

(** A relay handler either answers without any call, or makes the one call
    of its route and settles on the reply. *)
Lemma relay_run handler (env : environment) (req : request) (net : upstream) :
  relay handler ->
  snd (run net (handler env req)) = [] \/
  exists rq logged,
    calls_upstream env req handler rq /\
    run net (handler env req) = (settle logged (net rq), [rq]).
Proof.
  intros [].
  - destruct (unset (REPLICATE_API_KEY env)) eqn:Hkey.
    { left. unfold post_predictions. rewrite Hkey. reflexivity. }
    destruct (log_model_settled req) as [[[] Hmodel] | [e Hmodel]].
    2:{ left. unfold post_predictions. rewrite Hkey, Hmodel. reflexivity. }
    destruct (log_image_settled req) as [[[] Himage] | [e Himage]].
    2:{ left. unfold post_predictions. rewrite Hkey, Hmodel, Himage. reflexivity. }
    right. eexists _, "id". split; [constructor |].
    apply run_post_predictions; assumption.
  - destruct (unset (REPLICATE_API_KEY env)) eqn:Hkey.
    { left. unfold get_prediction. rewrite Hkey. reflexivity. }
    right. eexists _, "status". split; [constructor |].
    apply run_get_prediction; assumption.
Qed.

(** A [try] whose [catch] block returns leaves no error uncaught: the run
    has a result, or stays pending at an [await]. *)
Lemma try_catch_returns {A : Type} (net : upstream) (m : io A)
    (h : string -> io A) :
  (forall message, exists a, h message = Return a) ->
  (exists a, fst (run net (try_catch m h)) = inr a) \/
  fst (run net (try_catch m h)) = inl Pending.
Proof.
  intros Hh. rewrite run_try_catch.
  destruct (run net m) as [[[message |] | a] calls].
  - destruct (Hh message) as [a ->]. cbn. eauto.
  - cbn. auto.
  - cbn. eauto.
Qed.

(** No error escapes a relay handler: the request is answered, or the
    handler stays suspended at its call. *)
Lemma relay_answers_or_pends handler (env : environment) (req : request)
    (net : upstream) :
  relay handler ->
  (exists resp, fst (run net (handler env req)) = inr resp) \/
  fst (run net (handler env req)) = inl Pending.
Proof.
  intros []; apply try_catch_returns; eauto.
Qed.

(** C2. When the credential REPLICATE_API_KEY is not configured (unset, or
    set to the empty string, which [!apiKey] treats alike), both relay
    handlers answer every request with HTTP 500 and the configuration-error
    body, and make no outbound call. *)
Theorem missing_credential_is_500 handler (env : environment) (req : request)
    (net : upstream) :
  relay handler ->
  unset (REPLICATE_API_KEY env) = true ->
  run net (handler env req) = (inr (res_status_json 500 configuration_error), []).
Proof.
  intros [] Hkey.
  - unfold post_predictions. rewrite Hkey. reflexivity.
  - unfold get_prediction. rewrite Hkey. reflexivity.
Qed.

(** C4. Whenever a relay handler has made its call and the upstream answers
    it with a 4xx or 5xx status and a JSON body, the handler responds with
    exactly that status and exactly that body. *)
Theorem upstream_error_passes_through handler (env : environment)
    (req : request) (net : upstream) (rq : outbound) (st : Z) (result : json) :
  relay handler ->
  snd (run net (handler env req)) = [rq] ->
  net rq = Replies st (inr result) ->
  400 <= st <= 599 ->
  fst (run net (handler env req)) = inr (res_status_json st result).
Proof.
  intros Hrelay Hcalls Hreply Hst.
  destruct (relay_run handler env req net Hrelay)
    as [Hnone | (rq' & logged & _ & Hrun)].
  - rewrite Hnone in Hcalls. discriminate.
  - rewrite Hrun in *. cbn in Hcalls. injection Hcalls as ->.
    cbn [fst]. rewrite Hreply. unfold settle, ok. cbn [status].
    replace (st <? 300)%Z with false by (symmetry; apply Z.ltb_ge; lia).
    rewrite andb_false_r. reflexivity.
Qed.

(** C5. Whenever the outbound call of a relay handler throws (the network
    call is rejected, or the body of the answer is not JSON), the handler
    responds with HTTP 500 and a body whose [error] field is the fixed text
    ['Proxy server error'] and whose [message] field is the message of the
    error, and the call is not made a second time. *)
Theorem transport_failure_is_500_once handler (env : environment)
    (req : request) (net : upstream) (rq : outbound) (rest : list outbound)
    (message : string) :
  relay handler ->
  snd (run net (handler env req)) = rq :: rest ->
  thrown (net rq) = Some message ->
  run net (handler env req)
  = (inr {| statusCode := 500;
            sent := Some (Obj [("error", Str "Proxy server error");
                               ("message", Str message)]) |}, [rq]).
Proof.
  intros Hrelay Hcalls Hthrown.
  destruct (relay_run handler env req net Hrelay)
    as [Hnone | (rq' & logged & _ & Hrun)].
  - rewrite Hnone in Hcalls. discriminate.
  - rewrite Hrun in *. cbn in Hcalls. injection Hcalls as -> <-.
    unfold settle.
    destruct (net rq) as [m | st [m | result] |]; cbn in Hthrown;
      try discriminate; injection Hthrown as ->; reflexivity.
Qed.

(** C3, as amended.  With the credential configured and a payload (an object
    or an array) whose [version] is absent, [null] or a string,
    [POST /predictions] makes exactly one outbound call: a POST to the fixed
    URL, with the payload as its body and [Token <credential>] as its
    Authorization header.  When the upstream answers with JSON, a status
    outside 200..299 is passed on with the body, and a status in 200..299
    with a body other than [null] gives status 200 with that body. *)
Theorem create_relays_payload_and_answer (env : environment) (req : request)
    (net : upstream) (apiKey : string) :
  REPLICATE_API_KEY env = Some apiKey ->
  apiKey <> "" ->
  loggable req = true ->
  let rq := {| fetch_url := "https://api.replicate.com/v1/predictions";
               fetch_method := "POST";
               fetch_headers := [("Authorization", "Token " ++ apiKey);
                                 ("Content-Type", "application/json")];
               fetch_body := Some (body req) |} in
  snd (run net (post_predictions env req)) = [rq] /\
  forall st result,
    net rq = Replies st (inr result) ->
    (ok {| status := st; json_result := inr result |} = false ->
     fst (run net (post_predictions env req)) = inr (res_status_json st result)) /\
    (ok {| status := st; json_result := inr result |} = true ->
     result <> Null ->
     fst (run net (post_predictions env req)) = inr (res_status_json 200 result)).
Proof.
  intros Hkey Hset Hlog rq.
  assert (Hunset : unset (REPLICATE_API_KEY env) = false).
  { rewrite Hkey. cbn. apply String.eqb_neq. assumption. }
  assert (Hparsed : parsed_body (body req) = true).
  { unfold loggable in Hlog. apply andb_prop in Hlog. apply Hlog. }
  pose proof (run_post_predictions net env req Hunset
                (log_model_passes req Hlog) (log_image_passes req Hparsed)) as Hrun.
  cbn zeta in Hrun. rewrite Hkey in Hrun. cbn [env_text] in Hrun.
  change (create_call apiKey req) with rq in Hrun.
  rewrite Hrun. split; [reflexivity |].
  intros st result Hreply. cbn [fst]. rewrite Hreply. unfold settle.
  split.
  - intros ->. reflexivity.
  - intros -> Hresult. destruct result; try reflexivity. contradiction.
Qed.

(* ------------------------------------------------------------------------- *)
(** ** The reset-key check *)

Lemma member_of_truthy (v : value) (p : string) :
  truthy v = true -> member v p = Return (Get v p).
Proof.
  destruct v as [| [] |]; cbn; try discriminate; reflexivity.
Qed.

Lemma member_of_parsed (j : json) (p : string) :
  parsed_body j = true -> member (Data j) p = Return (Get (Data j) p).
Proof.
  destruct j; cbn; try discriminate; reflexivity.
Qed.

(** The check on a key that is a string and not empty: the table is read
    under that very string. *)
Lemma run_validate_string (env : environment) (req : request) (net : upstream)
    (k : string) :
  Get (Data (body req)) "resetKey" = Data (Str k) ->
  k <> "" ->
  run net (validate_reset_key env req)
  = (inr (let found := Get (Data SECURE_RESET_KEYS) k in
          if truthy found
          then res_json (Obj (spread [("success", Bool true)] found))
          else res_json invalid_key), []).
Proof.
  intros Hget Hk. unfold validate_reset_key.
  assert (Hmember : member (Data (body req)) "resetKey" = Return (Data (Str k))).
  { rewrite <- Hget. destruct (body req); try reflexivity. discriminate Hget. }
  rewrite Hmember. cbn [bind truthy].
  apply String.eqb_neq in Hk. rewrite Hk. cbn [negb lookup ToPropertyKey ToString bind].
  destruct (truthy (Get (Data SECURE_RESET_KEYS) k)) eqn:Hfound.
  - rewrite (member_of_truthy _ _ Hfound). reflexivity.
  - reflexivity.
Qed.

(** A key of the table gets [success: true] followed by the fields of its
    descriptor. *)
Lemma table_key_is_merged (env : environment) (req : request) (net : upstream)
    (k resetType message : string) :
  Get (Data (body req)) "resetKey" = Data (Str k) ->
  own SECURE_RESET_KEYS_entries k
  = Some (descriptor resetType message) ->
  run net (validate_reset_key env req)
  = (inr (res_json (Obj [("success", Bool true);
                         ("resetType", Str resetType);
                         ("creditsGranted", Num "0");
                         ("message", Str message)])), []).
Proof.
  intros Hget Hown.
  assert (Hk : k <> "").
  { intros ->. cbn in Hown. discriminate. }
  rewrite (run_validate_string env req net k Hget Hk).
  unfold SECURE_RESET_KEYS. cbn [Get]. rewrite Hown. reflexivity.
Qed.

(** A string that is neither a key of the table nor a name that the table
    inherits is answered as invalid. *)
Lemma unknown_key_is_invalid (env : environment) (req : request) (net : upstream)
    (k : string) :
  Get (Data (body req)) "resetKey" = Data (Str k) ->
  k <> "" ->
  Get (Data SECURE_RESET_KEYS) k = Undefined ->
  run net (validate_reset_key env req) = (inr (res_status_json 200 invalid_key), []).
Proof.
  intros Hget Hk Hmiss.
  rewrite (run_validate_string env req net k Hget Hk), Hmiss. reflexivity.
Qed.

(** C1, at the keys where the code departs from it.  A reset key that names
    a property of [Object.prototype] ([constructor], [toString],
    [__proto__], ...) is not a key of the table, yet the lookup finds the
    inherited member, which is truthy and has nothing to spread: the answer
    is HTTP 200 with [{success: true}]. *)
Theorem inherited_name_is_accepted (env : environment) (req : request)
    (net : upstream) (k : string) :
  In k Object_prototype ->
  Get (Data (body req)) "resetKey" = Data (Str k) ->
  own SECURE_RESET_KEYS_entries k = None /\
  run net (validate_reset_key env req)
  = (inr (res_status_json 200 (Obj [("success", Bool true)])), []).
Proof.
  intros Hin Hget.
  assert (Hk : k <> "").
  { intros ->. cbn in Hin. intuition discriminate. }
  rewrite (run_validate_string env req net k Hget Hk).
  cbn in Hin.
  repeat (destruct Hin as [<- | Hin]; [split; reflexivity |]).
  contradiction.
Qed.

(** C6. The key [ALETO_RESET_DEFAULT_2024] is answered with HTTP 200 and
    [success: true], [resetType: 'default'] and the message
    ['Credits reset to default (2 credits)'] (and [creditsGranted: 0]). *)
Theorem default_key_resets_to_default (env : environment) (req : request)
    (net : upstream) :
  Get (Data (body req)) "resetKey" = Data (Str "ALETO_RESET_DEFAULT_2024") ->
  run net (validate_reset_key env req)
  = (inr (res_status_json 200
            (Obj [("success", Bool true);
                  ("resetType", Str "default");
                  ("creditsGranted", Num "0");
                  ("message", Str "Credits reset to default (2 credits)")])),
     []).
Proof.
  intros Hget.
  apply (table_key_is_merged env req net _ _ _ Hget). reflexivity.
Qed.

(** C7. When [resetKey] is missing from the parsed body or is the empty
    string, the answer is HTTP 400 with a body whose [success] is [false]. *)
Theorem missing_key_is_400 (env : environment) (req : request) (net : upstream) :
  parsed_body (body req) = true ->
  Get (Data (body req)) "resetKey" = Undefined \/
  Get (Data (body req)) "resetKey" = Data (Str "") ->
  exists payload,
    run net (validate_reset_key env req) = (inr (res_status_json 400 payload), []) /\
    Get (Data payload) "success" = Data (Bool false).
Proof.
  intros Hparsed Hkey. exists key_required. split; [| reflexivity].
  unfold validate_reset_key.
  rewrite (member_of_parsed _ _ Hparsed).
  destruct Hkey as [-> | ->]; reflexivity.
Qed.

Lemma lookup_settled (resetKey : value) : settled (lookup resetKey).
Proof.
  unfold settled, lookup. destruct (ToPropertyKey resetKey); eauto.
Qed.

(** The check never awaits anything, and what it returns is determined by
    the parsed body. *)
Lemma validate_reset_key_returns (b : json) :
  exists resp, forall env req,
    body req = b -> validate_reset_key env req = Return resp.
Proof.
  destruct (member_settled (Data b) "resetKey") as [[resetKey Hm] | [e Hm]].
  - destruct (truthy resetKey) eqn:Hkey.
    + destruct (lookup_settled resetKey) as [[found Hl] | [e Hl]].
      * destruct (truthy found) eqn:Hfound.
        -- eexists. intros env req Hb. unfold validate_reset_key. rewrite Hb.
           rewrite Hm. cbn [bind]. rewrite Hkey. cbn [negb].
           rewrite Hl. cbn [bind]. rewrite Hfound.
           rewrite (member_of_truthy _ _ Hfound). reflexivity.
        -- eexists. intros env req Hb. unfold validate_reset_key. rewrite Hb.
           rewrite Hm. cbn [bind]. rewrite Hkey. cbn [negb].
           rewrite Hl. cbn [bind]. rewrite Hfound. reflexivity.
      * eexists. intros env req Hb. unfold validate_reset_key. rewrite Hb.
        rewrite Hm. cbn [bind]. rewrite Hkey. cbn [negb].
        rewrite Hl. reflexivity.
    + eexists. intros env req Hb. unfold validate_reset_key. rewrite Hb.
      rewrite Hm. cbn [bind]. rewrite Hkey. reflexivity.
  - eexists. intros env req Hb. unfold validate_reset_key. rewrite Hb.
    rewrite Hm. reflexivity.
Qed.

(** C9. The answer of the reset-key check is a function of the request body
    alone: two requests with equal bodies get equal answers (status and
    body), whatever the environments and the upstreams, and the check makes
    no outbound call. *)
Theorem validation_depends_on_body_only (env env' : environment)
    (req req' : request) (net net' : upstream) :
  body req = body req' ->
  run net (validate_reset_key env req) = run net' (validate_reset_key env' req') /\
  snd (run net (validate_reset_key env req)) = [] /\
  exists resp, fst (run net (validate_reset_key env req)) = inr resp.
Proof.
  intros Hbody.
  destruct (validate_reset_key_returns (body req')) as [resp Hresp].
  rewrite (Hresp env req Hbody), (Hresp env' req' eq_refl).
  cbn. eauto.
Qed.

(** Every descriptor of the table has [resetType] ['default'] or ['zero']
    and [creditsGranted] 0. *)
Lemma table_descriptors (k : string) (d : json) :
  own SECURE_RESET_KEYS_entries k = Some d ->
  (Get (Data d) "resetType" = Data (Str "default") \/
   Get (Data d) "resetType" = Data (Str "zero")) /\
  Get (Data d) "creditsGranted" = Data (Num "0").
Proof.
  unfold SECURE_RESET_KEYS_entries. cbn [own].
  repeat match goal with
         | |- context [if ?c then _ else _] => destruct c
         end;
    intros H; try discriminate; injection H as <-; cbn; auto.
Qed.

(** C10, at the input where the code departs from it.  The table itself is
    as the claim says, but a success answer need not come from a descriptor:
    the key [toString] is answered with [success: true] and neither
    [creditsGranted] nor [resetType]. *)
Theorem success_without_descriptor_fields (env : environment) (net : upstream) :
  (forall k d,
      own SECURE_RESET_KEYS_entries k = Some d ->
      (Get (Data d) "resetType" = Data (Str "default") \/
       Get (Data d) "resetType" = Data (Str "zero")) /\
      Get (Data d) "creditsGranted" = Data (Num "0")) /\
  exists payload,
    run net (validate_reset_key env
               (Samples.post "/validate-reset-key"
                  (Obj [("resetKey", Str "toString")])))
    = (inr (res_status_json 200 payload), []) /\
    Get (Data payload) "success" = Data (Bool true) /\
    Get (Data payload) "creditsGranted" = Undefined /\
    Get (Data payload) "resetType" = Undefined.
Proof.
  split; [exact table_descriptors |].
  exists (Obj [("success", Bool true)]). repeat split.
Qed.

(* ------------------------------------------------------------------------- *)
(** ** Routing *)

Section Routing.

Variable decodeURIComponent : string -> option string.

(** When no layer fails and no route serves the message, the router reaches
    the layer of the catch-all with no error pending. *)
Lemma dispatch_unrouted (env : environment) (msg : incoming) (b : json)
    (layers : list route) :
  forallb (decodes decodeURIComponent msg) layers = true ->
  existsb (served msg) layers = false ->
  dispatch decodeURIComponent env msg b layers None
  = dispatch decodeURIComponent env msg b [] None.
Proof.
  induction layers as [| r layers IH]; intros Hdec Hserved.
  - reflexivity.
  - cbn [forallb existsb] in Hdec, Hserved.
    apply andb_prop in Hdec as [Hr Hdec].
    apply orb_false_elim in Hserved as [Hs Hserved].
    cbn [dispatch]. unfold decodes in Hr. unfold served in Hs.
    unfold layer_match in *.
    destruct (regexp_exec (pattern r) (pathname msg)) as [captures |].
    + destruct (decode_params decodeURIComponent captures).
      * auto.
      * rewrite Hs. auto.
      * discriminate Hr.
    + auto.
Qed.

(** C8, as amended.  A request that is not a preflight ([OPTIONS]), whose
    body the JSON parser accepts, whose path decodes, and whose method and
    path are those of none of the four routes, is answered with HTTP 404 and
    the body that lists the four routes. *)
Theorem unmatched_request_is_404 (env : environment) (msg : incoming)
    (net : upstream) :
  preflight msg = false ->
  accepted (content msg) = true ->
  well_encoded decodeURIComponent msg = true ->
  routed msg = false ->
  run net (app decodeURIComponent env msg)
  = (inr (res_status_json 404
            (Obj [("error", Str "Route not found");
                  ("availableRoutes",
                   Arr [Str "GET /"; Str "POST /predictions";
                        Str "GET /predictions/:id";
                        Str "POST /validate-reset-key"])])), []).
Proof.
  intros Hpre Hacc Henc Hrouted. unfold app. rewrite Hpre.
  unfold accepted in Hacc.
  destruct (json_parser (content msg)) as [message | b]; [discriminate |].
  unfold well_encoded in Henc. apply andb_prop in Henc as [Hstar Hlayers].
  rewrite dispatch_unrouted by assumption.
  cbn [dispatch].
  destruct (decodeURIComponent (pathname msg)); [reflexivity | discriminate].
Qed.

End Routing.

(** The other two ways past the catch-all: a body that the JSON parser
    refuses, and a path that does not decode, both end in the error
    middleware. *)
Lemma refused_body_is_500 (decodeURIComponent : string -> option string)
    (env : environment) (net : upstream) (m p message : string) :
  preflight {| http_method := m; pathname := p; content := Refused message |} = false ->
  exists payload,
    run net (app decodeURIComponent env
               {| http_method := m; pathname := p; content := Refused message |})
    = (inr (res_status_json 500 payload), []).
Proof.
  intros Hpre. unfold app. rewrite Hpre. cbn. eauto.
Qed.

Lemma undecodable_path_is_500 (env : environment) (net : upstream) :
  exists payload,
    run net (app (fun _ => None) env
               {| http_method := "GET"; pathname := "/%"; content := Absent |})
    = (inr (res_status_json 500 payload), []).
Proof.
  cbn. eauto.
Qed.

(** The application hands the requests of the routes to their handlers. *)
Lemma app_serves_create (decodeURIComponent : string -> option string)
    (env : environment) (props : list (string * json)) :
  app decodeURIComponent env
    {| http_method := "POST"; pathname := "/predictions";
       content := ParsedObject props |}
  = post_predictions env (Samples.post "/predictions" (Obj props)).
Proof. reflexivity. Qed.

Lemma app_serves_status (env : environment) :
  app Samples.verbatim env
    {| http_method := "GET"; pathname := "/predictions/p1"; content := Absent |}
  = get_prediction env (Samples.get_status "p1").
Proof. reflexivity. Qed.

Lemma app_serves_reset_key (decodeURIComponent : string -> option string)
    (env : environment) (props : list (string * json)) :
  app decodeURIComponent env
    {| http_method := "POST"; pathname := "/validate-reset-key";
       content := ParsedObject props |}
  = validate_reset_key env (Samples.post "/validate-reset-key" (Obj props)).
Proof. reflexivity. Qed.

(* ------------------------------------------------------------------------- *)
(** ** Instances and counterexamples *)

(** C2 at a sample: no credential, the create handler. *)
Lemma missing_credential_is_500_witness :
  unset (REPLICATE_API_KEY Samples.without_key) = true /\
  run Samples.down
    (post_predictions Samples.without_key
       (Samples.post "/predictions" Samples.inference))
  = (inr (res_status_json 500 configuration_error), []) /\
  run Samples.down
    (get_prediction Samples.without_key (Samples.get_status "p1"))
  = (inr (res_status_json 500 configuration_error), []).
Proof.
  split; [reflexivity |]. split.
  - apply (missing_credential_is_500 post_predictions); [constructor | reflexivity].
  - apply (missing_credential_is_500 get_prediction); [constructor | reflexivity].
Defined.

(** C3 as stated fails: the upstream answers the creation with 201, the
    handler makes its one call and passes the body on, but with status 200. *)
Lemma created_status_is_not_mirrored :
  run (Samples.answers 201 Samples.prediction)
    (post_predictions Samples.with_key
       (Samples.post "/predictions" Samples.inference))
  = (inr (res_status_json 200 Samples.prediction),
     [create_call "r8_secret" (Samples.post "/predictions" Samples.inference)]) /\
  res_status_json 200 Samples.prediction <> res_status_json 201 Samples.prediction.
Proof.
  split; [reflexivity | discriminate].
Qed.

(** C3, as amended, at the same sample. *)
Lemma create_relays_payload_and_answer_witness :
  REPLICATE_API_KEY Samples.with_key = Some "r8_secret" /\
  "r8_secret" <> "" /\
  loggable (Samples.post "/predictions" Samples.inference) = true /\
  snd (run (Samples.answers 201 Samples.prediction)
         (post_predictions Samples.with_key
            (Samples.post "/predictions" Samples.inference)))
  = [create_call "r8_secret" (Samples.post "/predictions" Samples.inference)] /\
  fst (run (Samples.answers 201 Samples.prediction)
         (post_predictions Samples.with_key
            (Samples.post "/predictions" Samples.inference)))
  = inr (res_status_json 200 Samples.prediction).
Proof.
  assert (Hkey : REPLICATE_API_KEY Samples.with_key = Some "r8_secret")
    by reflexivity.
  assert (Hset : "r8_secret" <> "") by discriminate.
  assert (Hlog : loggable (Samples.post "/predictions" Samples.inference) = true)
    by reflexivity.
  destruct (create_relays_payload_and_answer Samples.with_key
              (Samples.post "/predictions" Samples.inference)
              (Samples.answers 201 Samples.prediction) "r8_secret"
              Hkey Hset Hlog) as [Hcalls Hanswer].
  destruct (Hanswer 201 Samples.prediction eq_refl) as [_ Hok].
  split; [exact Hkey |]. split; [exact Hset |]. split; [exact Hlog |].
  split; [exact Hcalls |].
  apply Hok; [reflexivity | discriminate].
Defined.

(** The two throws of the logging in [POST /predictions]: a [version] that
    is a number stops the handler before its call, and an ok answer whose
    body is [null] stops it after. *)
Example version_number_throws_before_call :
  run (Samples.answers 201 Samples.prediction)
    (post_predictions Samples.with_key
       (Samples.post "/predictions" (Obj [("version", Num "5")])))
  = (inr (res_status_json 500
            (proxy_error "req.body.version?.split is not a function")), []).
Proof. reflexivity. Qed.

Example null_result_throws_after_call :
  run (Samples.answers 200 Null)
    (post_predictions Samples.with_key
       (Samples.post "/predictions" Samples.inference))
  = (inr (res_status_json 500
            (proxy_error "Cannot read properties of null (reading 'id')")),
     [create_call "r8_secret" (Samples.post "/predictions" Samples.inference)]).
Proof. reflexivity. Qed.

(** C4 at two samples: the upstream refuses a status query with 422, and a
    creation with 402. *)
Lemma upstream_error_passes_through_witness :
  400 <= 422 <= 599 /\
  fst (run (Samples.answers 422 Samples.unprocessable)
         (get_prediction Samples.with_key (Samples.get_status "p1")))
  = inr (res_status_json 422 Samples.unprocessable) /\
  fst (run (Samples.answers 402 Samples.unprocessable)
         (post_predictions Samples.with_key
            (Samples.post "/predictions" Samples.inference)))
  = inr (res_status_json 402 Samples.unprocessable).
Proof.
  split; [lia |]. split.
  - apply (upstream_error_passes_through get_prediction Samples.with_key
             (Samples.get_status "p1") (Samples.answers 422 Samples.unprocessable)
             (status_call "r8_secret" "p1") 422 Samples.unprocessable).
    + constructor.
    + reflexivity.
    + reflexivity.
    + lia.
  - apply (upstream_error_passes_through post_predictions Samples.with_key
             (Samples.post "/predictions" Samples.inference)
             (Samples.answers 402 Samples.unprocessable)
             (create_call "r8_secret"
                (Samples.post "/predictions" Samples.inference))
             402 Samples.unprocessable).
    + constructor.
    + reflexivity.
    + reflexivity.
    + lia.
Defined.

(** C5 at two samples: the upstream is down while a prediction is created,
    and it answers a status query with a page that is not JSON. *)
Lemma transport_failure_is_500_once_witness :
  run Samples.down
    (post_predictions Samples.with_key
       (Samples.post "/predictions" Samples.inference))
  = (inr {| statusCode := 500;
            sent := Some (Obj [("error", Str "Proxy server error");
                               ("message", Str "connect ECONNREFUSED")]) |},
     [create_call "r8_secret" (Samples.post "/predictions" Samples.inference)]) /\
  run Samples.garbled
    (get_prediction Samples.with_key (Samples.get_status "p1"))
  = (inr {| statusCode := 500;
            sent := Some (Obj [("error", Str "Proxy server error");
                               ("message",
                                Str "Unexpected token < in JSON at position 0")]) |},
     [status_call "r8_secret" "p1"]).
Proof.
  split.
  - apply (transport_failure_is_500_once post_predictions Samples.with_key
             (Samples.post "/predictions" Samples.inference) Samples.down
             (create_call "r8_secret"
                (Samples.post "/predictions" Samples.inference))
             [] "connect ECONNREFUSED").
    + constructor.
    + reflexivity.
    + reflexivity.
  - apply (transport_failure_is_500_once get_prediction Samples.with_key
             (Samples.get_status "p1") Samples.garbled
             (status_call "r8_secret" "p1")
             [] "Unexpected token < in JSON at position 0").
    + constructor.
    + reflexivity.
    + reflexivity.
Defined.

(** C1's departure at a sample: the key [constructor]. *)
Lemma inherited_name_is_accepted_witness :
  In "constructor" Object_prototype /\
  own SECURE_RESET_KEYS_entries "constructor" = None /\
  run Samples.down
    (validate_reset_key Samples.with_key
       (Samples.post "/validate-reset-key" (Obj [("resetKey", Str "constructor")])))
  = (inr (res_status_json 200 (Obj [("success", Bool true)])), []).
Proof.
  assert (Hin : In "constructor" Object_prototype) by (left; reflexivity).
  split; [exact Hin |].
  apply (inherited_name_is_accepted Samples.with_key
           (Samples.post "/validate-reset-key" (Obj [("resetKey", Str "constructor")]))
           Samples.down "constructor" Hin).
  reflexivity.
Defined.

(** C6 at a sample body. *)
Lemma default_key_resets_to_default_witness :
  run Samples.down
    (validate_reset_key Samples.without_key
       (Samples.post "/validate-reset-key"
          (Obj [("resetKey", Str "ALETO_RESET_DEFAULT_2024")])))
  = (inr (res_status_json 200
            (Obj [("success", Bool true);
                  ("resetType", Str "default");
                  ("creditsGranted", Num "0");
                  ("message", Str "Credits reset to default (2 credits)")])),
     []).
Proof.
  apply (default_key_resets_to_default Samples.without_key
           (Samples.post "/validate-reset-key"
              (Obj [("resetKey", Str "ALETO_RESET_DEFAULT_2024")]))
           Samples.down).
  reflexivity.
Defined.

(** C7 at two samples: the empty body and the empty key. *)
Lemma missing_key_is_400_witness :
  (exists payload,
      run Samples.down
        (validate_reset_key Samples.with_key
           (Samples.post "/validate-reset-key" (Obj [])))
      = (inr (res_status_json 400 payload), []) /\
      Get (Data payload) "success" = Data (Bool false)) /\
  (exists payload,
      run Samples.down
        (validate_reset_key Samples.with_key
           (Samples.post "/validate-reset-key" (Obj [("resetKey", Str "")])))
      = (inr (res_status_json 400 payload), []) /\
      Get (Data payload) "success" = Data (Bool false)).
Proof.
  split.
  - apply (missing_key_is_400 Samples.with_key
             (Samples.post "/validate-reset-key" (Obj [])) Samples.down).
    + reflexivity.
    + left. reflexivity.
  - apply (missing_key_is_400 Samples.with_key
             (Samples.post "/validate-reset-key" (Obj [("resetKey", Str "")]))
             Samples.down).
    + reflexivity.
    + right. reflexivity.
Defined.

(** C9 at a sample: the same body under two environments, two upstreams and
    two paths. *)
Lemma validation_depends_on_body_only_witness :
  run Samples.down
    (validate_reset_key Samples.with_key
       (Samples.post "/validate-reset-key"
          (Obj [("resetKey", Str "ALETO_RESET_ZERO_2024")])))
  = run (Samples.answers 200 Samples.prediction)
      (validate_reset_key Samples.without_key
         (Samples.post "/validate-reset-key/"
            (Obj [("resetKey", Str "ALETO_RESET_ZERO_2024")]))).
Proof.
  apply (validation_depends_on_body_only Samples.with_key Samples.without_key
           (Samples.post "/validate-reset-key"
              (Obj [("resetKey", Str "ALETO_RESET_ZERO_2024")]))
           (Samples.post "/validate-reset-key/"
              (Obj [("resetKey", Str "ALETO_RESET_ZERO_2024")]))
           Samples.down (Samples.answers 200 Samples.prediction)).
  reflexivity.
Defined.

(** C8 as stated fails: [OPTIONS /unknown-path] is the method and path of no
    route, and [cors] answers it with 204 and no body. *)
Lemma preflight_of_unknown_path_is_204 :
  routed {| http_method := "OPTIONS"; pathname := "/unknown-path";
            content := Absent |} = false /\
  run Samples.down
    (app Samples.verbatim Samples.with_key
       {| http_method := "OPTIONS"; pathname := "/unknown-path";
          content := Absent |})
  = (inr {| statusCode := 204; sent := None |}, []) /\
  statusCode {| statusCode := 204; sent := None |} <> 404.
Proof.
  split; [reflexivity |]. split; [reflexivity | discriminate].
Qed.

(** C8, as amended, at the sample of the specification. *)
Lemma unmatched_request_is_404_witness :
  routed {| http_method := "GET"; pathname := "/unknown-path";
            content := Absent |} = false /\
  run Samples.down
    (app Samples.verbatim Samples.with_key
       {| http_method := "GET"; pathname := "/unknown-path"; content := Absent |})
  = (inr (res_status_json 404 route_not_found), []).
Proof.
  split; [reflexivity |].
  apply (unmatched_request_is_404 Samples.verbatim Samples.with_key
           {| http_method := "GET"; pathname := "/unknown-path"; content := Absent |}
           Samples.down); reflexivity.
Defined.

(* ------------------------------------------------------------------------- *)
(** ** Further properties of the relay handlers *)

(** A relay handler either answers 500 without any call, or makes the one
    call of its route and settles on the reply. *)
Lemma relay_run_cases handler (env : environment) (req : request)
    (net : upstream) :
  relay handler ->
  (exists payload,
      run net (handler env req) = (inr (res_status_json 500 payload), [])) \/
  exists rq logged,
    calls_upstream env req handler rq /\
    unset (REPLICATE_API_KEY env) = false /\
    run net (handler env req) = (settle logged (net rq), [rq]).
Proof.
  intros [].
  - destruct (unset (REPLICATE_API_KEY env)) eqn:Hkey.
    { left. eexists. unfold post_predictions. rewrite Hkey. reflexivity. }
    destruct (log_model_settled req) as [[[] Hmodel] | [e Hmodel]].
    2:{ left. eexists. unfold post_predictions. rewrite Hkey, Hmodel. reflexivity. }
    destruct (log_image_settled req) as [[[] Himage] | [e Himage]].
    2:{ left. eexists. unfold post_predictions.
        rewrite Hkey, Hmodel, Himage. reflexivity. }
    right. eexists _, "id". split; [constructor |]. split; [reflexivity |].
    apply run_post_predictions; assumption.
  - destruct (unset (REPLICATE_API_KEY env)) eqn:Hkey.
    { left. eexists. unfold get_prediction. rewrite Hkey. reflexivity. }
    right. eexists _, "status". split; [constructor |]. split; [reflexivity |].
    apply run_get_prediction; assumption.
Qed.

(** X1. With the credential configured, [GET /predictions/:id] makes exactly
    one outbound call for every request: a GET without body to the fixed URL
    followed by the id, with [Token <credential>] as its only header. *)
Theorem status_query_is_forwarded (env : environment) (req : request)
    (net : upstream) (apiKey : string) :
  REPLICATE_API_KEY env = Some apiKey ->
  apiKey <> "" ->
  snd (run net (get_prediction env req))
  = [ {| fetch_url := "https://api.replicate.com/v1/predictions/" ++ param req "id";
         fetch_method := "GET";
         fetch_headers := [("Authorization", "Token " ++ apiKey)];
         fetch_body := None |} ].
Proof.
  intros Hkey Hset.
  assert (Hunset : unset (REPLICATE_API_KEY env) = false).
  { rewrite Hkey. cbn. apply String.eqb_neq. assumption. }
  rewrite (run_get_prediction net env req Hunset), Hkey. reflexivity.
Qed.

(** X2. When the upstream answers a status query with a status in 200..299
    and a JSON body other than [null], the handler answers 200 with that
    body, whatever the body says (a failed prediction is passed on like a
    succeeded one). *)
Theorem status_answer_is_passed_on (env : environment) (req : request)
    (net : upstream) (rq : outbound) (st : Z) (result : json) :
  snd (run net (get_prediction env req)) = [rq] ->
  net rq = Replies st (inr result) ->
  200 <= st < 300 ->
  result <> Null ->
  fst (run net (get_prediction env req)) = inr (res_status_json 200 result).
Proof.
  intros Hcalls Hreply Hst Hresult.
  destruct (relay_run_cases get_prediction env req net relay_status)
    as [[payload Hrun] | (rq' & logged & _ & _ & Hrun)].
  - rewrite Hrun in Hcalls. discriminate.
  - rewrite Hrun in *. cbn in Hcalls. injection Hcalls as ->.
    cbn [fst]. rewrite Hreply. unfold settle, ok. cbn [status].
    replace (200 <=? st)%Z with true by (symmetry; apply Z.leb_le; lia).
    replace (st <? 300)%Z with true by (symmetry; apply Z.ltb_lt; lia).
    cbn [andb]. destruct result; try reflexivity. contradiction.
Qed.


(** X4. A relay handler that answers without having called the upstream
    answers 500: no success is ever reported on the server's own account. *)
Theorem no_call_means_500 handler (env : environment) (req : request)
    (net : upstream) :
  relay handler ->
  snd (run net (handler env req)) = [] ->
  exists payload,
    fst (run net (handler env req)) = inr (res_status_json 500 payload).
Proof.
  intros Hrelay Hcalls.
  destruct (relay_run_cases handler env req net Hrelay)
    as [[payload Hrun] | (rq & logged & _ & _ & Hrun)].
  - rewrite Hrun. cbn. eauto.
  - rewrite Hrun in Hcalls. discriminate.
Qed.

(** X5. When the upstream answers with a status in 200..299 and the JSON
    body [null], a relay handler answers 500: the logging of the result
    throws on it. *)
Theorem null_result_is_500 handler (env : environment) (req : request)
    (net : upstream) (rq : outbound) (st : Z) :
  relay handler ->
  snd (run net (handler env req)) = [rq] ->
  net rq = Replies st (inr Null) ->
  200 <= st < 300 ->
  exists message,
    fst (run net (handler env req))
    = inr (res_status_json 500 (proxy_error message)).
Proof.
  intros Hrelay Hcalls Hreply Hst.
  destruct (relay_run_cases handler env req net Hrelay)
    as [[payload Hrun] | (rq' & logged & _ & _ & Hrun)].
  - rewrite Hrun in Hcalls. discriminate.
  - rewrite Hrun in *. cbn in Hcalls. injection Hcalls as ->.
    cbn [fst]. rewrite Hreply. unfold settle, ok. cbn [status].
    replace (200 <=? st)%Z with true by (symmetry; apply Z.leb_le; lia).
    replace (st <? 300)%Z with true by (symmetry; apply Z.ltb_lt; lia).
    cbn [andb]. eauto.
Qed.

(** X6. A payload of [POST /predictions] whose [version] is there and is
    neither [null] nor a string (a number, a boolean, an array, an object)
    is answered 500 without any outbound call, even with the credential
    configured. *)
Theorem odd_version_is_500_without_call (env : environment) (req : request)
    (net : upstream) :
  unset (REPLICATE_API_KEY env) = false ->
  parsed_body (body req) = true ->
  match version_of req with
  | Data (Bool _) | Data (Num _) | Data (Arr _) | Data (Obj _) => True
  | _ => False
  end ->
  run net (post_predictions env req)
  = (inr (res_status_json 500
            (proxy_error "req.body.version?.split is not a function")), []).
Proof.
  intros Hkey Hparsed Hversion. unfold post_predictions, log_model.
  rewrite Hkey, (member_of_parsed _ _ Hparsed). cbn [bind].
  fold (version_of req).
  destruct (version_of req) as [| [| | | | | props] |]; try contradiction;
    try reflexivity.
  cbn. destruct (own props "split"); reflexivity.
Qed.

(* ------------------------------------------------------------------------- *)
(** ** Further properties of the reset-key check *)

(** X7. A reset key that is there but falsy ([null], [false], the number 0,
    the empty string) is answered like a missing one: 400 and
    ['Reset key is required']. *)
Theorem falsy_key_is_400 (env : environment) (req : request) (net : upstream) :
  parsed_body (body req) = true ->
  truthy (Get (Data (body req)) "resetKey") = false ->
  run net (validate_reset_key env req)
  = (inr (res_status_json 400
            (Obj [("success", Bool false);
                  ("message", Str "Reset key is required")])), []).
Proof.
  intros Hparsed Hfalsy. unfold validate_reset_key.
  rewrite (member_of_parsed _ _ Hparsed). cbn [bind].
  rewrite Hfalsy. reflexivity.
Qed.

Lemma inherited_spec (k : string) :
  inherited k = Undefined <-> ~ In k Object_prototype.
Proof.
  unfold inherited.
  destruct (existsb (String.eqb k) Object_prototype) eqn:Hex.
  - apply existsb_exists in Hex as (x & Hin & Heq).
    apply String.eqb_eq in Heq. subst x.
    split; [discriminate | contradiction].
  - split; [| reflexivity]. intros _ Hin.
    assert (existsb (String.eqb k) Object_prototype = true) as Htrue.
    { apply existsb_exists. exists k. split; [assumption | apply String.eqb_refl]. }
    rewrite Htrue in Hex. discriminate.
Qed.

Lemma table_entry_is_descriptor (k : string) (d : json) :
  own SECURE_RESET_KEYS_entries k = Some d ->
  exists resetType message, d = descriptor resetType message.
Proof.
  unfold SECURE_RESET_KEYS_entries. cbn [own].
  repeat match goal with
         | |- context [if ?c then _ else _] => destruct c
         end;
    intros H; try discriminate; injection H as <-; eauto.
Qed.

(** X8. Which strings the check turns down: a reset key that is a string
    and not empty gets the answer ['Invalid reset key'] exactly when it is
    neither one of the keys of the table nor one of the property names of
    [Object.prototype]. *)
Theorem invalid_exactly_when_unknown (env : environment) (req : request)
    (net : upstream) (k : string) :
  Get (Data (body req)) "resetKey" = Data (Str k) ->
  k <> "" ->
  (run net (validate_reset_key env req)
   = (inr (res_status_json 200
             (Obj [("success", Bool false);
                   ("message", Str "Invalid reset key")])), [])
   <->
   own SECURE_RESET_KEYS_entries k = None /\ ~ In k Object_prototype).
Proof.
  intros Hget Hk.
  rewrite (run_validate_string env req net k Hget Hk).
  unfold SECURE_RESET_KEYS. cbn [Get].
  destruct (own SECURE_RESET_KEYS_entries k) as [d |] eqn:Hown.
  - destruct (table_entry_is_descriptor k d Hown) as (resetType & message & ->).
    split; [discriminate | intros [Hnone _]; discriminate].
  - destruct (inherited k) eqn:Hinh.
    + split; [| reflexivity]. intros _. split; [reflexivity |].
      apply inherited_spec. assumption.
    + unfold inherited in Hinh.
      destruct (existsb (String.eqb k) Object_prototype); discriminate.
    + split; [discriminate |]. intros [_ Hnot].
      apply inherited_spec in Hnot. rewrite Hnot in Hinh. discriminate.
Qed.

(** X9. A reset key wrapped in an array of one element is answered like the
    key itself: the lookup turns the array into the string it holds. *)
Theorem wrapped_key_is_unwrapped (env : environment) (req req' : request)
    (net : upstream) (k : string) :
  Get (Data (body req)) "resetKey" = Data (Arr [Str k]) ->
  Get (Data (body req')) "resetKey" = Data (Str k) ->
  k <> "" ->
  run net (validate_reset_key env req) = run net (validate_reset_key env req').
Proof.
  intros Hget Hget' Hk.
  rewrite (run_validate_string env req' net k Hget' Hk).
  unfold validate_reset_key.
  assert (Hmember : member (Data (body req)) "resetKey"
                    = Return (Data (Arr [Str k]))).
  { rewrite <- Hget. destruct (body req); try reflexivity. discriminate Hget. }
  rewrite Hmember. cbn [bind truthy negb].
  assert (Hkey : lookup (Data (Arr [Str k]))
                 = Return (Get (Data SECURE_RESET_KEYS) k)).
  { reflexivity. }
  rewrite Hkey. cbn [bind].
  destruct (truthy (Get (Data SECURE_RESET_KEYS) k)) eqn:Hfound.
  - rewrite (member_of_truthy _ _ Hfound). reflexivity.
  - reflexivity.
Qed.

(** X10. A reset key that is a JSON object: with an own property
    [toString] the key conversion throws and the answer is 500 with
    ['Reset key validation failed']; without one the key reads
    ['[object Object]'] and the answer is ['Invalid reset key']. *)
Theorem object_key_is_never_accepted (env : environment) (req : request)
    (net : upstream) (props : list (string * json)) :
  Get (Data (body req)) "resetKey" = Data (Obj props) ->
  run net (validate_reset_key env req)
  = (inr (match own props "toString" with
          | Some _ =>
              res_status_json 500
                (Obj [("success", Bool false);
                      ("message", Str "Reset key validation failed")])
          | None =>
              res_status_json 200
                (Obj [("success", Bool false);
                      ("message", Str "Invalid reset key")])
          end), []).
Proof.
  intros Hget. unfold validate_reset_key.
  assert (Hmember : member (Data (body req)) "resetKey"
                    = Return (Data (Obj props))).
  { rewrite <- Hget. destruct (body req); try reflexivity. discriminate Hget. }
  rewrite Hmember. cbn [bind truthy negb]. unfold lookup. cbn [ToPropertyKey ToString].
  destruct (own props "toString"); reflexivity.
Qed.

(* ------------------------------------------------------------------------- *)
(** ** Merging a descriptor into the answer *)

Lemma own_define (target : list (string * json)) (k k' : string) (v : json) :
  own (define target k v) k' = if k =? k' then Some v else own target k'.
Proof.
  induction target as [| [k0 v0] rest IH]; cbn.
  - reflexivity.
  - destruct (String.eqb_spec k0 k) as [-> | Hk0]; cbn.
    + destruct (k =? k'); reflexivity.
    + rewrite IH. destruct (String.eqb_spec k0 k') as [-> | Hk0'].
      * destruct (String.eqb_spec k k') as [-> | _]; [contradiction | reflexivity].
      * reflexivity.
Qed.

Lemma own_some_in (props : list (string * json)) (k : string) (v : json) :
  own props k = Some v -> In k (map fst props).
Proof.
  induction props as [| [k0 v0] rest IH]; cbn; [discriminate |].
  destruct (String.eqb_spec k0 k) as [-> | _]; auto.
Qed.

(** X11. What [{ ...target, ...source }] holds, for a source with distinct
    property names: every property of the source with the source's value,
    and every other property of the target as it was.  So the answer to a
    valid key carries each field of the descriptor, and [success: true]
    unless the descriptor has a [success] of its own. *)
Theorem spread_overrides (target props : list (string * json)) (k : string) :
  NoDup (map fst props) ->
  own (spread target (Data (Obj props))) k
  = match own props k with
    | Some v => Some v
    | None => own target k
    end.
Proof.
  unfold spread. cbn [own_enumerable].
  revert target. induction props as [| [k0 v0] rest IH]; intros target Hnodup.
  - reflexivity.
  - cbn [map fst] in Hnodup. inversion Hnodup as [| ? ? Hfresh Hrest]; subst.
    cbn [fold_left fst snd own]. rewrite (IH _ Hrest), own_define.
    destruct (own rest k) as [v |] eqn:Hown.
    + destruct (String.eqb_spec k0 k) as [-> | _]; [| reflexivity].
      exfalso. apply Hfresh. exact (own_some_in rest k v Hown).
    + destruct (k0 =? k); reflexivity.
Qed.

(* ------------------------------------------------------------------------- *)
(** ** Further properties of the routing *)

Import Paths.

Lemma segments_not_nil (s : string) : segments s <> [].
Proof.
  destruct s as [| c rest]; cbn; [discriminate |].
  destruct (c =? "/")%char; [discriminate |].
  destruct (segments rest); discriminate.
Qed.

Lemma segments_no_slash (s : string) : no_slash s = true -> segments s = [s].
Proof.
  induction s as [| c rest IH]; cbn; [reflexivity |].
  destruct (c =? "/")%char; cbn; [discriminate |].
  intros Hrest. rewrite (IH Hrest). reflexivity.
Qed.

Lemma segments_status (seg : string) :
  segments ("/predictions/" ++ seg) = "" :: "predictions" :: segments seg.
Proof. reflexivity. Qed.

Section Forwarding.

Variable decodeURIComponent : string -> option string.

(** A GET or HEAD request for [/predictions/<segment>] is handed to the
    status handler with the decoded segment as [req.params.id]. *)
Lemma app_serves_status_of (env : environment) (m seg id : string)
    (c : payload) (b : json) :
  m = "GET" \/ m = "HEAD" ->
  no_slash seg = true ->
  seg <> "" ->
  decodeURIComponent seg = Some id ->
  json_parser c = inr b ->
  app decodeURIComponent env
    {| http_method := m; pathname := "/predictions/" ++ seg; content := c |}
  = get_prediction env
      {| method := m; path := "/predictions/" ++ seg;
         params := [("id", id)]; body := b |}.
Proof.
  intros Hm Hseg Hne Hdec Hbody. unfold app.
  assert (Hpre : preflight {| http_method := m;
                              pathname := "/predictions/" ++ seg;
                              content := c |} = false)
    by (destruct Hm as [-> | ->]; reflexivity).
  rewrite Hpre. cbn [content]. rewrite Hbody.
  unfold routes. cbn [dispatch pathname].
  unfold layer_match, regexp_exec. cbn [pattern].
  rewrite segments_status, (segments_no_slash seg Hseg).
  destruct seg as [| ch rest]; [contradiction |].
  cbn [match_tokens toLowerCase map_chars]. cbn.
  rewrite Hdec. cbn.
  destruct Hm as [-> | ->]; reflexivity.
Qed.

(** X12. From the URL to the upstream: with the credential configured, a
    GET (or HEAD) request for [/predictions/<segment>] whose body the parser
    accepts makes exactly one outbound call, to the fixed URL followed by
    the percent-decoded segment. *)
Theorem status_route_reaches_upstream (env : environment) (net : upstream)
    (m seg id apiKey : string) (c : payload) :
  m = "GET" \/ m = "HEAD" ->
  no_slash seg = true ->
  seg <> "" ->
  decodeURIComponent seg = Some id ->
  accepted c = true ->
  REPLICATE_API_KEY env = Some apiKey ->
  apiKey <> "" ->
  snd (run net (app decodeURIComponent env
                  {| http_method := m; pathname := "/predictions/" ++ seg;
                     content := c |}))
  = [ {| fetch_url := "https://api.replicate.com/v1/predictions/" ++ id;
         fetch_method := "GET";
         fetch_headers := [("Authorization", "Token " ++ apiKey)];
         fetch_body := None |} ].
Proof.
  intros Hm Hseg Hne Hdec Hacc Hkey Hset.
  unfold accepted in Hacc.
  destruct (json_parser c) as [message | b] eqn:Hbody; [discriminate |].
  rewrite (app_serves_status_of env m seg id c b Hm Hseg Hne Hdec Hbody).
  assert (Hunset : unset (REPLICATE_API_KEY env) = false).
  { rewrite Hkey. cbn. apply String.eqb_neq. assumption. }
  rewrite (run_get_prediction net env _ Hunset), Hkey. reflexivity.
Qed.

End Forwarding.

Section Methods.

Variable decodeURIComponent : string -> option string.

(** Walking the layers for a HEAD request goes as for a GET request, when
    every route is a [get] or a [post] route whose handler does not read the
    method. *)
Lemma dispatch_head_as_get (env : environment) (p : string) (c : payload)
    (b : json) (layers : list route) (layerError : option string) :
  (forall r, In r layers ->
     (verb r = "get" \/ verb r = "post") /\
     forall ps,
       handle r env {| method := "HEAD"; path := p; params := ps; body := b |}
       = handle r env {| method := "GET"; path := p; params := ps; body := b |}) ->
  dispatch decodeURIComponent env
    {| http_method := "HEAD"; pathname := p; content := c |} b layers layerError
  = dispatch decodeURIComponent env
      {| http_method := "GET"; pathname := p; content := c |} b layers layerError.
Proof.
  revert layerError.
  induction layers as [| r layers IH]; intros layerError Hlayers.
  - cbn [dispatch pathname http_method]. reflexivity.
  - assert (Hrest : forall r', In r' layers ->
              (verb r' = "get" \/ verb r' = "post") /\
              forall ps,
                handle r' env {| method := "HEAD"; path := p; params := ps; body := b |}
                = handle r' env {| method := "GET"; path := p; params := ps; body := b |})
      by (intros r' Hin; apply Hlayers; right; exact Hin).
    destruct (Hlayers r (or_introl eq_refl)) as [Hverb Hhandle].
    cbn [dispatch pathname http_method].
    destruct (layer_match decodeURIComponent r p) as [| ps | message].
    + apply IH, Hrest.
    + destruct layerError; [apply IH, Hrest |].
      unfold handles_method.
      destruct Hverb as [-> | ->]; cbn.
      * apply Hhandle.
      * apply IH, Hrest.
    + apply IH, Hrest.
Qed.

(** X13. A HEAD request is served like the GET request for the same path
    and body: same answer and same outbound calls.  In particular
    [HEAD /predictions/:id] queries the upstream. *)
Theorem head_is_served_as_get (env : environment) (net : upstream)
    (p : string) (c : payload) :
  run net (app decodeURIComponent env
             {| http_method := "HEAD"; pathname := p; content := c |})
  = run net (app decodeURIComponent env
               {| http_method := "GET"; pathname := p; content := c |}).
Proof.
  apply (f_equal (run net)). unfold app. cbn [preflight http_method content].
  change (toUpperCase "HEAD" =? "OPTIONS") with false.
  change (toUpperCase "GET" =? "OPTIONS") with false.
  cbn iota. destruct (json_parser c) as [message | b]; [reflexivity |].
  apply dispatch_head_as_get.
  intros r Hin. unfold routes in Hin. cbn [In] in Hin.
  repeat (destruct Hin as [<- | Hin]; [split; [cbn; auto | reflexivity] |]).
  contradiction.
Qed.

End Methods.

Lemma lower_char_slash (c : ascii) :
  (lower_char c =? "/")%char = (c =? "/")%char.
Proof. destruct c as [[] [] [] [] [] [] [] []]; reflexivity. Qed.

Lemma lower_char_idem (c : ascii) : lower_char (lower_char c) = lower_char c.
Proof. destruct c as [[] [] [] [] [] [] [] []]; reflexivity. Qed.

Lemma toLowerCase_idem (s : string) : toLowerCase (toLowerCase s) = toLowerCase s.
Proof.
  unfold toLowerCase.
  induction s as [| c rest IH]; cbn [map_chars]; [reflexivity |].
  rewrite lower_char_idem, IH. reflexivity.
Qed.

Lemma segments_lower (s : string) :
  segments (toLowerCase s) = map toLowerCase (segments s).
Proof.
  unfold toLowerCase.
  induction s as [| c rest IH]; cbn [map_chars segments]; [reflexivity |].
  rewrite lower_char_slash, IH.
  destruct (c =? "/")%char; [reflexivity |].
  destruct (segments rest); reflexivity.
Qed.

(** Lowering the segments changes what the parameters capture, not whether
    the pattern matches. *)
Lemma match_tokens_lower (pat : list token) (segs : list string) :
  match match_tokens pat (map toLowerCase segs) with Some _ => true | None => false end
  = match match_tokens pat segs with Some _ => true | None => false end.
Proof.
  revert segs. induction pat as [| [s | name] pat IH]; intros segs.
  - destruct segs as [| [| ch x] [| y segs]]; reflexivity.
  - destruct segs as [| x segs]; [reflexivity |].
    cbn [map match_tokens]. rewrite toLowerCase_idem.
    destruct (toLowerCase x =? toLowerCase s); [apply IH | reflexivity].
  - destruct segs as [| x segs]; [reflexivity |].
    cbn [map match_tokens].
    destruct x as [| ch x]; [reflexivity |]. cbn [toLowerCase map_chars String.eqb].
    specialize (IH segs).
    destruct (match_tokens pat (map toLowerCase segs)),
             (match_tokens pat segs); cbn in *; congruence.
Qed.

Lemma matches_lower (pat : list token) (p : string) :
  matches pat (toLowerCase p) = matches pat p.
Proof.
  unfold matches, regexp_exec. rewrite segments_lower.
  destruct (segments p) as [| [| ch x] segs]; try reflexivity.
  cbn [map toLowerCase map_chars]. apply match_tokens_lower.
Qed.

(** X14. Routing does not look at the case of the path: a request is for
    one of the routes exactly when the request with the path in lower case
    is ([/Predictions] is served like [/predictions]). *)
Theorem routing_ignores_case (m p : string) (c : payload) :
  routed {| http_method := m; pathname := toLowerCase p; content := c |}
  = routed {| http_method := m; pathname := p; content := c |}.
Proof.
  unfold routed, routes, served. cbn [existsb pathname http_method pattern].
  repeat match goal with
         | |- context [regexp_exec ?pat (toLowerCase p)] =>
             let H := fresh in
             pose proof (matches_lower pat p) as H; unfold matches in H;
             destruct (regexp_exec pat (toLowerCase p)),
                      (regexp_exec pat p); try discriminate H; clear H
         end; reflexivity.
Qed.

Lemma segments_trailing_slash (p : string) :
  segments (p ++ "/") = (segments p ++ [""])%list.
Proof.
  induction p as [| c rest IH]; cbn [append segments]; [reflexivity |].
  rewrite IH. destruct (c =? "/")%char; [reflexivity |].
  pose proof (segments_not_nil rest) as Hne.
  destruct (segments rest); [contradiction | reflexivity].
Qed.

Lemma last_segment (p d : string) :
  ends_with_slash p = false -> p <> "" -> last (segments p) d <> "".
Proof.
  induction p as [| c rest IH]; intros Hend Hne; [contradiction |].
  destruct rest as [| c' rest'].
  - cbn in Hend |- *. rewrite Hend. cbn. discriminate.
  - assert (Hrest : last (segments (String c' rest')) d <> "")
      by (apply IH; [exact Hend | discriminate]).
    pose proof (segments_not_nil (String c' rest')) as Hnil.
    remember (String c' rest') as r eqn:Hr. clear Hr IH Hend Hne.
    cbn [segments].
    destruct (segments r) as [| seg [| seg' segs]];
      [contradiction | |];
      destruct (c =? "/")%char; cbn in Hrest |- *;
      try assumption; discriminate.
Qed.

Lemma toLowerCase_empty (s : string) : (toLowerCase s =? "") = (s =? "").
Proof. destruct s; reflexivity. Qed.

(** With no empty literal in the pattern, one more empty segment after a
    last segment that is not empty changes nothing. *)
Lemma match_tokens_trailing (pat : list token) (segs : list string) :
  proper pat = true ->
  last segs "/" <> "" ->
  match_tokens pat (segs ++ [""]) = match_tokens pat segs.
Proof.
  revert segs. induction pat as [| [s | name] pat IH]; intros segs Hproper Hlast.
  - destruct segs as [| [| ch x] [| y segs]]; try reflexivity.
    cbn in Hlast. contradiction.
  - cbn [proper] in Hproper. apply andb_prop in Hproper as [Hs Hproper].
    destruct segs as [| x segs].
    + cbn [List.app match_tokens].
      change (toLowerCase "") with "".
      replace ("" =? toLowerCase s) with false; [reflexivity |].
      symmetry. rewrite String.eqb_sym, toLowerCase_empty.
      apply negb_true_iff. exact Hs.
    + cbn [List.app match_tokens].
      destruct (toLowerCase x =? toLowerCase s); [| reflexivity].
      apply IH; [exact Hproper |].
      destruct segs; [discriminate | exact Hlast].
  - cbn [proper] in Hproper.
    destruct segs as [| x segs]; [reflexivity |].
    cbn [List.app match_tokens].
    destruct (x =? ""); [reflexivity |].
    rewrite IH; [reflexivity | exact Hproper |].
    destruct segs; [discriminate | exact Hlast].
Qed.

Lemma matches_trailing_slash (pat : list token) (p : string) :
  proper pat = true ->
  ends_with_slash p = false ->
  regexp_exec pat (p ++ "/") = regexp_exec pat p.
Proof.
  intros Hproper Hend. unfold regexp_exec. rewrite segments_trailing_slash.
  destruct p as [| c rest].
  - destruct pat as [| [s | name] pat]; try reflexivity.
    cbn [proper] in Hproper. apply andb_prop in Hproper as [Hs _].
    cbn [segments List.app match_tokens].
    change (toLowerCase "") with "".
    replace ("" =? toLowerCase s) with false; [reflexivity |].
    symmetry. rewrite String.eqb_sym, toLowerCase_empty.
    apply negb_true_iff. exact Hs.
  - pose proof (last_segment (String c rest) "/" Hend) as Hlast.
    pose proof (segments_not_nil (String c rest)) as Hnil.
    destruct (segments (String c rest)) as [| [| ch x] segs];
      [contradiction | | reflexivity].
    cbn [List.app]. apply match_tokens_trailing; [exact Hproper |].
    destruct segs; [discriminate |].
    apply Hlast. discriminate.
Qed.

(** X15. One trailing slash does not matter to the routing: for a path that
    does not end in a slash, the request for the path followed by a slash is
    for one of the routes exactly when the request for the path is. *)
Theorem routing_ignores_trailing_slash (m p : string) (c : payload) :
  ends_with_slash p = false ->
  routed {| http_method := m; pathname := p ++ "/"; content := c |}
  = routed {| http_method := m; pathname := p; content := c |}.
Proof.
  intros Hend.
  unfold routed, routes, served. cbn [existsb pathname http_method pattern].
  rewrite !(fun pat H => matches_trailing_slash pat p H Hend) by reflexivity.
  reflexivity.
Qed.

(** X16. Outside development the error middleware discloses nothing of the
    error: a request whose body the JSON parser refuses is answered 500 with
    the fixed message, on every path and for every method but OPTIONS,
    without any outbound call. *)
Theorem refused_body_discloses_nothing
    (decodeURIComponent : string -> option string) (env : environment)
    (net : upstream) (msg : incoming) (message : string) :
  preflight msg = false ->
  content msg = Refused message ->
  NODE_ENV env <> Some "development" ->
  run net (app decodeURIComponent env msg)
  = (inr (res_status_json 500
            (Obj [("error", Str "Internal server error");
                  ("message", Str "Something went wrong")])), []).
Proof.
  intros Hpre Hcontent Hmode. unfold app. rewrite Hpre, Hcontent.
  cbn [json_parser]. unfold error_middleware.
  destruct (NODE_ENV env) as [mode |]; [| reflexivity].
  assert (Hneq : mode <> "development") by congruence.
  clear Hmode Hpre Hcontent.
  repeat (destruct mode as [| [[] [] [] [] [] [] [] []] mode];
          try reflexivity).
  contradiction.
Qed.

(* ------------------------------------------------------------------------- *)
(** ** The earlier server *)

(** X17. The earlier server turns down every request whose Authorization
    header is missing, empty or does not start with ['Token ']: 401, and no
    outbound call. *)
Theorem missing_header_is_401 handler (req : Legacy.request) (net : upstream) :
  Legacy.relay handler ->
  Legacy.refused (Legacy.authorization req) = true ->
  run net (handler req) = (inr (res_status_json 401 Legacy.unauthorized), []).
Proof.
  intros [] Hrefused.
  - unfold Legacy.post_predictions. rewrite Hrefused. reflexivity.
  - unfold Legacy.get_prediction. rewrite Hrefused. reflexivity.
Qed.

(** X18. The earlier server forwards the caller's header as it came: with
    a header that starts with ['Token '], its status handler makes exactly one
    outbound call, a GET to the fixed URL followed by the id, with that very
    header as Authorization. *)
Theorem caller_header_is_forwarded (req : Legacy.request) (net : upstream)
    (header : string) :
  Legacy.authorization req = Some header ->
  prefix "Token " header = true ->
  snd (run net (Legacy.get_prediction req))
  = [ {| fetch_url := "https://api.replicate.com/v1/predictions/"
                      ++ param (Legacy.inner req) "id";
         fetch_method := "GET";
         fetch_headers := [("Authorization", header)];
         fetch_body := None |} ].
Proof.
  intros Hheader Hprefix. unfold Legacy.get_prediction.
  assert (Hrefused : Legacy.refused (Legacy.authorization req) = false).
  { rewrite Hheader. cbn [Legacy.refused]. rewrite Hprefix.
    destruct header; [discriminate | reflexivity]. }
  rewrite Hrefused, Hheader. cbn [env_text].
  rewrite settle_tail by reflexivity. reflexivity.
Qed.

(** X19. Moving the credential into the environment kept the relay as it
    was: a handler of the earlier server, given the header
    [Token <credential>], runs exactly like its successor with that
    credential configured: same outbound calls, same answer. *)
Theorem successor_relays_alike old new (env : environment)
    (req : Legacy.request) (net : upstream) (apiKey : string) :
  Legacy.successor old new ->
  Legacy.authorization req = Some ("Token " ++ apiKey) ->
  REPLICATE_API_KEY env = Some apiKey ->
  apiKey <> "" ->
  run net (old req) = run net (new env (Legacy.inner req)).
Proof.
  intros Hsucc Hheader Hkey Hset.
  apply String.eqb_neq in Hset.
  assert (Hrefused : Legacy.refused (Some ("Token " ++ apiKey)) = false)
    by (destruct apiKey; vm_compute; reflexivity).
  destruct Hsucc.
  - unfold Legacy.post_predictions, post_predictions.
    rewrite Hheader, Hkey, Hrefused.
    cbn [unset env_text]. rewrite Hset. reflexivity.
  - unfold Legacy.get_prediction, get_prediction.
    rewrite Hheader, Hkey, Hrefused.
    cbn [unset env_text]. rewrite Hset. reflexivity.
Qed.

(* ------------------------------------------------------------------------- *)
(** ** Instances of the further properties *)

Lemma status_query_is_forwarded_witness :
  snd (run Samples.down
         (get_prediction Samples.with_key (Samples.get_status "p1")))
  = [status_call "r8_secret" "p1"].
Proof.
  apply (status_query_is_forwarded Samples.with_key (Samples.get_status "p1")
           Samples.down "r8_secret"); [reflexivity | discriminate].
Defined.

Lemma status_answer_is_passed_on_witness :
  fst (run (Samples.answers 200 Samples.prediction)
         (get_prediction Samples.with_key (Samples.get_status "p1")))
  = inr (res_status_json 200 Samples.prediction).
Proof.
  apply (status_answer_is_passed_on Samples.with_key (Samples.get_status "p1")
           (Samples.answers 200 Samples.prediction)
           (status_call "r8_secret" "p1") 200 Samples.prediction).
  - reflexivity.
  - reflexivity.
  - lia.
  - discriminate.
Defined.


Lemma no_call_means_500_witness :
  exists payload,
    fst (run Samples.down
           (post_predictions Samples.with_key
              (Samples.post "/predictions" (Obj [("version", Num "5")]))))
    = inr (res_status_json 500 payload).
Proof.
  apply (no_call_means_500 post_predictions Samples.with_key
           (Samples.post "/predictions" (Obj [("version", Num "5")]))
           Samples.down).
  - constructor.
  - reflexivity.
Defined.

Lemma null_result_is_500_witness :
  exists message,
    fst (run (Samples.answers 200 Null)
           (get_prediction Samples.with_key (Samples.get_status "p1")))
    = inr (res_status_json 500 (proxy_error message)).
Proof.
  apply (null_result_is_500 get_prediction Samples.with_key
           (Samples.get_status "p1") (Samples.answers 200 Null)
           (status_call "r8_secret" "p1") 200).
  - constructor.
  - reflexivity.
  - reflexivity.
  - lia.
Defined.

Lemma odd_version_is_500_without_call_witness :
  run Samples.down
    (post_predictions Samples.with_key
       (Samples.post "/predictions" (Obj [("version", Arr [Str "a:b"])])))
  = (inr (res_status_json 500
            (proxy_error "req.body.version?.split is not a function")), []).
Proof.
  apply (odd_version_is_500_without_call Samples.with_key
           (Samples.post "/predictions" (Obj [("version", Arr [Str "a:b"])]))
           Samples.down).
  - reflexivity.
  - reflexivity.
  - exact I.
Defined.

Lemma falsy_key_is_400_witness :
  run Samples.down
    (validate_reset_key Samples.with_key (Samples.keyed (Num "0")))
  = (inr (res_status_json 400
            (Obj [("success", Bool false);
                  ("message", Str "Reset key is required")])), []).
Proof.
  apply (falsy_key_is_400 Samples.with_key (Samples.keyed (Num "0"))
           Samples.down); reflexivity.
Defined.

Lemma invalid_exactly_when_unknown_witness :
  run Samples.down
    (validate_reset_key Samples.with_key (Samples.keyed (Str "nonexistent")))
  = (inr (res_status_json 200
            (Obj [("success", Bool false);
                  ("message", Str "Invalid reset key")])), []).
Proof.
  apply (invalid_exactly_when_unknown Samples.with_key
           (Samples.keyed (Str "nonexistent")) Samples.down "nonexistent").
  - reflexivity.
  - discriminate.
  - split; [reflexivity |]. cbn. intuition discriminate.
Defined.

Lemma wrapped_key_is_unwrapped_witness :
  run Samples.down
    (validate_reset_key Samples.with_key
       (Samples.keyed (Arr [Str "ALETO_RESET_ZERO_2024"])))
  = run Samples.down
      (validate_reset_key Samples.with_key
         (Samples.keyed (Str "ALETO_RESET_ZERO_2024"))).
Proof.
  apply (wrapped_key_is_unwrapped Samples.with_key
           (Samples.keyed (Arr [Str "ALETO_RESET_ZERO_2024"]))
           (Samples.keyed (Str "ALETO_RESET_ZERO_2024"))
           Samples.down "ALETO_RESET_ZERO_2024").
  - reflexivity.
  - reflexivity.
  - discriminate.
Defined.

Lemma object_key_is_never_accepted_witness :
  run Samples.down
    (validate_reset_key Samples.with_key
       (Samples.keyed (Obj [("toString", Str "ALETO_RESET_ZERO_2024")])))
  = (inr (res_status_json 500
            (Obj [("success", Bool false);
                  ("message", Str "Reset key validation failed")])), []).
Proof.
  apply (object_key_is_never_accepted Samples.with_key
           (Samples.keyed (Obj [("toString", Str "ALETO_RESET_ZERO_2024")]))
           Samples.down [("toString", Str "ALETO_RESET_ZERO_2024")]).
  reflexivity.
Defined.

Lemma spread_overrides_witness :
  own (spread [("success", Bool true)]
         (Data (descriptor "zero" "Credits reset to zero"))) "resetType"
  = Some (Str "zero") /\
  own (spread [("success", Bool true)]
         (Data (descriptor "zero" "Credits reset to zero"))) "success"
  = Some (Bool true).
Proof.
  assert (Hnodup : NoDup (map fst [("resetType", Str "zero");
                                   ("creditsGranted", Num "0");
                                   ("message", Str "Credits reset to zero")])).
  { cbn. repeat constructor; cbn; intuition discriminate. }
  split.
  - apply (spread_overrides [("success", Bool true)] _ "resetType" Hnodup).
  - apply (spread_overrides [("success", Bool true)] _ "success" Hnodup).
Defined.

Lemma status_route_reaches_upstream_witness :
  snd (run Samples.down
         (app Samples.verbatim Samples.with_key
            {| http_method := "GET"; pathname := "/predictions/p1";
               content := Absent |}))
  = [status_call "r8_secret" "p1"].
Proof.
  apply (status_route_reaches_upstream Samples.verbatim Samples.with_key
           Samples.down "GET" "p1" "p1" "r8_secret" Absent).
  - left. reflexivity.
  - reflexivity.
  - discriminate.
  - reflexivity.
  - reflexivity.
  - reflexivity.
  - discriminate.
Defined.

Lemma routing_ignores_trailing_slash_witness :
  routed {| http_method := "POST"; pathname := "/validate-reset-key/";
            content := Absent |}
  = routed {| http_method := "POST"; pathname := "/validate-reset-key";
              content := Absent |}.
Proof.
  apply (routing_ignores_trailing_slash "POST" "/validate-reset-key" Absent).
  reflexivity.
Defined.

Lemma refused_body_discloses_nothing_witness :
  run Samples.down
    (app Samples.verbatim Samples.with_key
       {| http_method := "POST"; pathname := "/predictions";
          content := Refused "Unexpected token } in JSON at position 12" |})
  = (inr (res_status_json 500
            (Obj [("error", Str "Internal server error");
                  ("message", Str "Something went wrong")])), []).
Proof.
  apply (refused_body_discloses_nothing Samples.verbatim Samples.with_key
           Samples.down
           {| http_method := "POST"; pathname := "/predictions";
              content := Refused "Unexpected token } in JSON at position 12" |}
           "Unexpected token } in JSON at position 12").
  - reflexivity.
  - reflexivity.
  - discriminate.
Defined.

Lemma missing_header_is_401_witness :
  run Samples.down
    (Legacy.post_predictions
       (Samples.with_header (Some "Bearer r8_secret")
          (Samples.post "/predictions" Samples.inference)))
  = (inr (res_status_json 401 Legacy.unauthorized), []) /\
  run Samples.down
    (Legacy.get_prediction
       (Samples.with_header None (Samples.get_status "p1")))
  = (inr (res_status_json 401 Legacy.unauthorized), []).
Proof.
  split.
  - apply (missing_header_is_401 Legacy.post_predictions);
      [constructor | vm_compute; reflexivity].
  - apply (missing_header_is_401 Legacy.get_prediction); [constructor | reflexivity].
Defined.

Lemma caller_header_is_forwarded_witness :
  snd (run Samples.down
         (Legacy.get_prediction
            (Samples.with_header (Some "Token r8_secret")
               (Samples.get_status "p1"))))
  = [Legacy.status_call "Token r8_secret" "p1"].
Proof.
  apply (caller_header_is_forwarded
           (Samples.with_header (Some "Token r8_secret") (Samples.get_status "p1"))
           Samples.down "Token r8_secret"); [reflexivity | vm_compute; reflexivity].
Defined.

Lemma successor_relays_alike_witness :
  run (Samples.answers 201 Samples.prediction)
    (Legacy.post_predictions
       (Samples.with_header (Some "Token r8_secret")
          (Samples.post "/predictions" Samples.inference)))
  = run (Samples.answers 201 Samples.prediction)
      (post_predictions Samples.with_key
         (Samples.post "/predictions" Samples.inference)).
Proof.
  apply (successor_relays_alike Legacy.post_predictions post_predictions
           Samples.with_key
           (Samples.with_header (Some "Token r8_secret")
              (Samples.post "/predictions" Samples.inference))
           (Samples.answers 201 Samples.prediction) "r8_secret").
  - constructor.
  - reflexivity.
  - reflexivity.
  - discriminate.
Defined.

(** An upstream that never settles the call: the handler has made its one
    call and stays suspended at it; the request gets no response. *)
Example hung_upstream_blocks_the_request :
  run Samples.silent
    (post_predictions Samples.with_key
       (Samples.post "/predictions" Samples.inference))
  = (inl Pending,
     [create_call "r8_secret" (Samples.post "/predictions" Samples.inference)]).
Proof. reflexivity. Qed.
